(** * Conversion.py: the signal parameter calculator

    A shallow embedding of [Conversion.py] and the properties of its three
    modulation classes and of the [App] host that swaps between them.

    - Python's [float] values are IEEE binary64 numbers, taken here as the
      [spec_float] of the Standard Library at precision 53 and maximal
      exponent 1024; the arithmetic of the program ([+], [*], [/]) is the
      correctly rounded arithmetic of [SpecFloat].
    - A text (a Python [str]) is a sequence of code points, held as its
      UTF-8 encoding in a [string]; [float] reads the blanks and the decimal
      digits of Unicode as Python does.
    - An exception is a value: a method returns [Ok v] or [Raise e], and
      [try: ... except ValueError:] is a match on that result.
    - A [tk.StringVar] is its text together with the write traces registered
      on it; the widgets that only lay the window out (frames, labels, grid
      positions, fonts) carry no state the program reads back and are left
      out. *)

From Stdlib Require Import ZArith Ascii String DecimalString SpecFloat Lia.
From stdpp Require Import base option strings gmap.

Local Open Scope Z_scope.

(** ** Python builtins used by the program *)

Module Py.

Inductive exn := ValueError | AttributeError | RecursionError.

Inductive result (A : Type) :=
| Ok (a : A)
| Raise (e : exn).
Arguments Ok {A} a.
Arguments Raise {A} e.

#[global] Instance result_ret : MRet result := @Ok.

#[global] Instance result_bind : MBind result := fun A B k r =>
  match r with
  | Ok a => k a
  | Raise e => Raise e
  end.

(** [getattr o "name"]: an attribute that was never assigned raises. *)
Definition getattr {A} (field : option A) : result A :=
  match field with
  | Some a => Ok a
  | None => Raise AttributeError
  end.

(** *** Floating-point numbers *)

Definition prec : Z := 53.
Definition emax : Z := 1024.

Definition float := spec_float.

Definition add : float -> float -> float := SFadd prec emax.
Definition mul : float -> float -> float := SFmul prec emax.
Definition div : float -> float -> float := SFdiv prec emax.

(** [float(n)] for an [int]. *)
Definition of_int (n : Z) : float := binary_normalize prec emax n 0 false.

(** The nearest binary64 to [(-1)^neg * m * 10^e], ties to even. An
    integer is rounded as it is; a proper fraction is one correctly
    rounded division of two integers. *)
Definition of_decimal (neg : bool) (m e : Z) : float :=
  match m with
  | Zpos p =>
      if 0 <=? e then binary_round prec emax neg (p * Z.to_pos (10 ^ e)) 0
      else SFdiv prec emax (S754_finite neg p 0)
                           (S754_finite false (Z.to_pos (10 ^ (- e))) 0)
  | _ => S754_zero neg
  end.

(** The literals [2.0] and [1000.0]. *)
Definition lit_2_0 : float := of_decimal false 20 (-1).
Definition lit_1000_0 : float := of_decimal false 10000 (-1).

(** *** [float(str)]

    The text is accepted when, once the leading and trailing whitespace is
    removed, it is

      [sign] (infinity | nan | number [exponent])

    with [number ::= digitpart ["."] | [digitpart] "." digitpart],
    [exponent ::= ("e" | "E") [sign] digitpart], [infinity] one of "inf"
    and "infinity" and [nan] "nan" in any letter case; a single underscore
    may separate two digits. Anything else raises [ValueError].

    A text is a sequence of code points; it is held here as its UTF-8
    encoding, one character of the string per byte. [float] first turns
    every blank of Unicode into a space and every decimal digit of Unicode
    into the ASCII digit of its value; what follows reads ASCII only:
    [isspace] and [isdigit] below are the tests of the C level, applied to
    the text after that step. *)

Definition code (c : ascii) : Z := Z.of_N (N_of_ascii c).

Definition isspace (c : ascii) : bool :=
  ((9 <=? code c) && (code c <=? 13)) || (code c =? 32).

Definition isdigit (c : ascii) : bool :=
  (48 <=? code c) && (code c <=? 57).

Definition tolower (c : ascii) : ascii :=
  if (65 <=? code c) && (code c <=? 90)
  then ascii_of_N (Z.to_N (code c + 32)) else c.

Fixpoint lstrip (s : string) : string :=
  match s with
  | String c s' => if isspace c then lstrip s' else s
  | EmptyString => s
  end.

Fixpoint rstrip (s : string) : string :=
  match s with
  | String c s' =>
      match rstrip s' with
      | EmptyString => if isspace c then EmptyString else String c EmptyString
      | t => String c t
      end
  | EmptyString => EmptyString
  end.

Definition strip (s : string) : string := rstrip (lstrip s).


(** Underscores are dropped; one that does not stand between two digits
    is an error. [prev] is the character just read. *)
Fixpoint drop_underscores (prev : ascii) (s : string) : option string :=
  match s with
  | EmptyString => if Ascii.eqb prev "_" then None else Some EmptyString
  | String c s' =>
      if Ascii.eqb c "_" then
        if isdigit prev then drop_underscores c s' else None
      else if Ascii.eqb prev "_" && negb (isdigit c) then None
      else option_map (String c) (drop_underscores c s')
  end.

Definition read_sign (s : string) : bool * string :=
  match s with
  | String "-" s' => (true, s')
  | String "+" s' => (false, s')
  | _ => (false, s)
  end.

(** Reads a run of digits: the number read so far, how many digits were
    read, and the text left. *)
Fixpoint read_digits (acc n : Z) (s : string) : Z * Z * string :=
  match s with
  | String c s' =>
      if isdigit c then read_digits (10 * acc + (code c - 48)) (n + 1) s'
      else (acc, n, s)
  | EmptyString => (acc, n, s)
  end.

(** [imatch s t]: [s] starts with the lower-case word [t], in any letter
    case; the text after it. *)
Fixpoint imatch (s t : string) : option string :=
  match t, s with
  | EmptyString, _ => Some s
  | String c t', String d s' =>
      if Ascii.eqb (tolower d) c then imatch s' t' else None
  | String _ _, EmptyString => None
  end.

(** A decimal number at the head of [s], and the text after it; [None]
    when no number starts there. An exponent mark without digits is not
    part of the number. *)
Definition read_number (neg : bool) (s : string) : option (float * string) :=
  let '(ip, ni, s1) := read_digits 0 0 s in
  let '(m, nf, s2) :=
    match s1 with
    | String "." t => read_digits ip 0 t
    | _ => (ip, 0, s1)
    end in
  if ni + nf =? 0 then None
  else
    let '(e, s3) :=
      match s2 with
      | String c t =>
          if Ascii.eqb (tolower c) "e" then
            let '(eneg, t1) := read_sign t in
            let '(ev, ne, t2) := read_digits 0 0 t1 in
            if ne =? 0 then (0, s2)
            else ((if eneg then - ev else ev), t2)
          else (0, s2)
      | EmptyString => (0, s2)
      end in
    Some (of_decimal neg m (e - nf), s3).

Definition read_inf_or_nan (neg : bool) (s : string) : option (float * string) :=
  match imatch s "inf" with
  | Some t =>
      match imatch t "inity" with
      | Some t' => Some (S754_infinity neg, t')
      | None => Some (S754_infinity neg, t)
      end
  | None =>
      match imatch s "nan" with
      | Some t => Some (S754_nan, t)
      | None => None
      end
  end.

Definition read_float (s : string) : option (float * string) :=
  let '(neg, s1) := read_sign s in
  match read_number neg s1 with
  | Some r => Some r
  | None => read_inf_or_nan neg s1
  end.

(** What an ASCII text reads as. *)
Definition float_of_ascii (s : string) : option float :=
  match drop_underscores " " s with
  | None => None
  | Some s1 =>
      match read_float (strip s1) with
      | Some (x, EmptyString) => Some x
      | _ => None
      end
  end.

(** **** The code points of a text *)

Definition chr (n : Z) : ascii := ascii_of_N (Z.to_N n).

(** A continuation byte, [10xxxxxx]. *)
Definition is_cont (c : ascii) : bool := (128 <=? code c) && (code c <? 192).

(** The code point at the head of a UTF-8 text and the text after it;
    [None] on the empty text and on bytes that encode no code point
    (a stray or missing continuation byte, an overlong form, a surrogate,
    a value above U+10FFFF). *)
Definition next_codepoint (s : string) : option (Z * string) :=
  match s with
  | EmptyString => None
  | String b0 s1 =>
      if code b0 <? 128 then Some (code b0, s1)
      else if code b0 <? 194 then None
      else if code b0 <? 224 then
        match s1 with
        | String b1 s2 =>
            if is_cont b1
            then Some ((code b0 - 192) * 64 + (code b1 - 128), s2)
            else None
        | EmptyString => None
        end
      else if code b0 <? 240 then
        match s1 with
        | String b1 (String b2 s3) =>
            let cp := ((code b0 - 224) * 64 + (code b1 - 128)) * 64
                      + (code b2 - 128) in
            if is_cont b1 && is_cont b2 && (2048 <=? cp)
               && negb ((55296 <=? cp) && (cp <? 57344))
            then Some (cp, s3) else None
        | _ => None
        end
      else if code b0 <? 245 then
        match s1 with
        | String b1 (String b2 (String b3 s4)) =>
            let cp := (((code b0 - 240) * 64 + (code b1 - 128)) * 64
                       + (code b2 - 128)) * 64 + (code b3 - 128) in
            if is_cont b1 && is_cont b2 && is_cont b3 && (65536 <=? cp)
               && (cp <? 1114112)
            then Some (cp, s4) else None
        | _ => None
        end
      else None
  end.

(** The code points of a text, read one after the other; [fuel] bounds their
    number, and the length of the text is enough. *)
Fixpoint decode_from (fuel : nat) (s : string) : option (list Z) :=
  match s with
  | EmptyString => Some []
  | String _ _ =>
      match fuel with
      | O => None
      | S fuel' =>
          match next_codepoint s with
          | Some (cp, rest) => option_map (cons cp) (decode_from fuel' rest)
          | None => None
          end
      end
  end.

Definition decode_utf8 (s : string) : option (list Z) :=
  decode_from (String.length s) s.

(** The UTF-8 encoding of a code point, and of a sequence of them. *)
Definition encode_codepoint (cp : Z) : string :=
  if cp <? 128 then String (chr cp) EmptyString
  else if cp <? 2048 then
    String (chr (192 + cp / 64)) (String (chr (128 + cp mod 64)) EmptyString)
  else if cp <? 65536 then
    String (chr (224 + cp / 4096))
      (String (chr (128 + cp / 64 mod 64))
         (String (chr (128 + cp mod 64)) EmptyString))
  else
    String (chr (240 + cp / 262144))
      (String (chr (128 + cp / 4096 mod 64))
         (String (chr (128 + cp / 64 mod 64))
            (String (chr (128 + cp mod 64)) EmptyString))).

Fixpoint encode_utf8 (cps : list Z) : string :=
  match cps with
  | [] => EmptyString
  | cp :: cps' => encode_codepoint cp +:+ encode_utf8 cps'
  end.

(** **** Blanks and decimal digits of Unicode (version 14.0) *)

(** The blanks from U+0080 on: NEL, the no-break space, the Ogham space
    mark, the spaces U+2000 to U+200A, the line and paragraph separators,
    the narrow no-break space, the medium mathematical space and the
    ideographic space. *)
Definition unicode_spaces : list Z :=
  [133; 160; 5760; 8192; 8193; 8194; 8195; 8196; 8197; 8198; 8199; 8200;
   8201; 8202; 8232; 8233; 8239; 8287; 12288].

Definition unicode_isspace (cp : Z) : bool :=
  existsb (Z.eqb cp) unicode_spaces.

(** The digit zero of each script: the ten digits of a script follow one
    another from its zero. *)
Definition unicode_zeros : list Z :=
  [1632; 1776; 1984; 2406; 2534; 2662; 2790; 2918; 3046; 3174; 3302; 3430;
   3558; 3664; 3792; 3872; 4160; 4240; 6112; 6160; 6470; 6608; 6784; 6800;
   6992; 7088; 7232; 7248; 42528; 43216; 43264; 43472; 43504; 43600; 44016;
   65296; 66720; 68912; 69734; 69872; 69942; 70096; 70384; 70736; 70864;
   71248; 71360; 71472; 71904; 72016; 72784; 73040; 73120; 92768; 92864;
   93008; 120782; 120792; 120802; 120812; 120822; 123200; 123632; 125264;
   130032].

Definition unicode_todecimal (cp : Z) : option Z :=
  match List.find (fun zero => (zero <=? cp) && (cp <=? zero + 9))
                  unicode_zeros with
  | Some zero => Some (cp - zero)
  | None => None
  end.

(** The character that stands for a code point once the text is made ASCII:
    itself below U+0080, a space for a blank, the digit for a decimal digit.
    Any other code point makes [float] fail. *)
Definition to_ascii_char (cp : Z) : option ascii :=
  if cp <? 128 then Some (chr cp)
  else if unicode_isspace cp then Some " "%char
  else option_map (fun d => chr (48 + d)) (unicode_todecimal cp).

Fixpoint to_ascii (cps : list Z) : option string :=
  match cps with
  | [] => Some EmptyString
  | cp :: cps' =>
      match to_ascii_char cp with
      | Some c => option_map (String c) (to_ascii cps')
      | None => None
      end
  end.

(** What a text reads as. *)
Definition float_of_string (s : string) : option float :=
  match decode_utf8 s with
  | Some cps =>
      match to_ascii cps with
      | Some s1 => float_of_ascii s1
      | None => None
      end
  | None => None
  end.





(** [float(s)] *)
Definition float_ (s : string) : result float :=
  match float_of_string s with
  | Some x => Ok x
  | None => Raise ValueError
  end.

(** *** [f"{x:.2f}"]

    The exact value of [x] rounded to two decimals, ties to even; the sign
    of a negative number is kept when it rounds to zero, and of a negative
    zero. *)

Definition round_half_even (num den : Z) : Z :=
  let q := num / den in
  match (2 * (num mod den)) ?= den with
  | Lt => q
  | Gt => q + 1
  | Eq => if Z.even q then q else q + 1
  end.

Definition digit_char (d : Z) : ascii := ascii_of_N (Z.to_N (48 + d)).

Definition string_of_Z (n : Z) : string :=
  NilZero.string_of_uint (N.to_uint (Z.to_N n)).

(** [hundredths] hundredths, printed with two decimals. *)
Definition fixed2 (neg : bool) (hundredths : Z) : string :=
  (if neg then "-" else EmptyString) +:+ string_of_Z (hundredths / 100) +:+ "." +:+
  String (digit_char (hundredths mod 100 / 10))
    (String (digit_char (hundredths mod 10)) EmptyString).

Definition format_2f (x : float) : string :=
  match x with
  | S754_nan => "nan"
  | S754_infinity neg => if neg then "-inf" else "inf"
  | S754_zero neg => fixed2 neg 0
  | S754_finite neg m e =>
      fixed2 neg
        (if 0 <=? e then 100 * Zpos m * 2 ^ e
         else round_half_even (100 * Zpos m) (2 ^ (- e)))
  end.

End Py.

Import Py.

(** ** tkinter variables

    A [StringVar] holds a text and the callbacks registered on its writes.
    The only callback the program registers is

      [lambda *args: self.current_mod_obj.update()]

    which looks [current_mod_obj] up when it runs, not when it is made. *)

Inductive callback := UpdateCurrent.

Record StringVar := mkStringVar {
  value : string;
  traces : list callback }.

(** [tk.StringVar(value=v)] *)
Definition StringVar_new (v : string) : StringVar :=
  {| value := v; traces := [] |}.

Definition StringVar_get (var : StringVar) : string := value var.

(** [var.set(v)]: the variable after the write, and the write traces that
    the write fires. *)
Definition StringVar_set (var : StringVar) (v : string)
  : StringVar * list callback :=
  ({| value := v; traces := traces var |}, traces var).

(** [var.trace_add("write", cb)] *)
Definition StringVar_trace_add (var : StringVar) (cb : callback) : StringVar :=
  {| value := value var; traces := cb :: traces var |}.

(** ** The modulation classes *)

Inductive pyclass := C_ModulationBase | C_QPSKModulation | C_FSKModulation.

#[global] Instance pyclass_eq_dec : EqDecision pyclass.
Proof. solve_decision. Defined.

(** An instance: its class and its attributes; an attribute is [None] until
    it is assigned. *)
Record ModObj := mkModObj {
  cls : pyclass;
  current_row : Z;
  rate_var : option StringVar;
  data_rate_var : option StringVar;
  diagram_var : option StringVar;
  freq_dev_var : option StringVar }.

Definition set_current_row (self : ModObj) (n : Z) : ModObj :=
  mkModObj (cls self) n (rate_var self) (data_rate_var self)
           (diagram_var self) (freq_dev_var self).
Definition set_rate_var (self : ModObj) (v : StringVar) : ModObj :=
  mkModObj (cls self) (current_row self) (Some v) (data_rate_var self)
           (diagram_var self) (freq_dev_var self).
Definition set_data_rate_var (self : ModObj) (v : StringVar) : ModObj :=
  mkModObj (cls self) (current_row self) (rate_var self) (Some v)
           (diagram_var self) (freq_dev_var self).
Definition set_diagram_var (self : ModObj) (v : StringVar) : ModObj :=
  mkModObj (cls self) (current_row self) (rate_var self) (data_rate_var self)
           (Some v) (freq_dev_var self).
Definition set_freq_dev_var (self : ModObj) (v : StringVar) : ModObj :=
  mkModObj (cls self) (current_row self) (rate_var self) (data_rate_var self)
           (diagram_var self) (Some v).

Definition nl : string := String (ascii_of_N 10) EmptyString.

(** *** [ModulationBase] *)

Definition ModulationBase_build_widgets (self : ModObj) : result ModObj :=
  let self := set_rate_var self (StringVar_new "0") in
  let self := set_current_row self (current_row self + 1) in
  let self := set_data_rate_var self (StringVar_new "0.00 bits/s") in
  let self := set_current_row self (current_row self + 1) in
  Ok self.

Definition ModulationBase_calculate_data_rate (self : ModObj) : result string :=
  match (var ← getattr (rate_var self); float_ (StringVar_get var)) with
  | Raise ValueError => Ok "Invalid input"
  | Raise e => Raise e
  | Ok rate => Ok (format_2f rate +:+ " bits/s")
  end.

Definition ModulationBase_get_diagram (self : ModObj) : string :=
  "*                *".

(** *** [QPSKModulation] *)

Definition QPSKModulation_calculate_data_rate (self : ModObj) : result string :=
  match (var ← getattr (rate_var self); float_ (StringVar_get var)) with
  | Raise ValueError => Ok "Invalid input"
  | Raise e => Raise e
  | Ok rate =>
      let data_rate := mul rate lit_2_0 in
      Ok (format_2f data_rate +:+ " bits/s")
  end.

Definition QPSKModulation_get_diagram (self : ModObj) : string :=
  "    *" +:+ nl +:+ "*       *" +:+ nl +:+ "    *".

(** *** [FSKModulation] *)

Definition FSKModulation_build_widgets (self : ModObj) : result ModObj :=
  self ← ModulationBase_build_widgets self;
  let self := set_freq_dev_var self (StringVar_new "0") in
  let self := set_current_row self (current_row self + 1) in
  Ok self.

Definition FSKModulation_calculate_data_rate (self : ModObj) : result string :=
  match (var ← getattr (rate_var self); float_ (StringVar_get var)) with
  | Raise ValueError => Ok "Invalid input"
  | Raise e => Raise e
  | Ok rate =>
      freq_dev ←
        match (var ← getattr (freq_dev_var self); float_ (StringVar_get var)) with
        | Raise ValueError => Ok (of_int 0)
        | r => r
        end;
      let data_rate := add rate (div freq_dev lit_1000_0) in
      Ok (format_2f data_rate +:+ " bits/s")
  end.

Definition FSKModulation_get_diagram (self : ModObj) : string :=
  "FSK constellation diagram" +:+ nl +:+ "(not defined)".

(** *** Method resolution

    [QPSKModulation] and [FSKModulation] derive from [ModulationBase]; a
    call [self.m()] runs the method of the class of [self], or the one it
    inherits. *)

Definition build_widgets (self : ModObj) : result ModObj :=
  match cls self with
  | C_FSKModulation => FSKModulation_build_widgets self
  | _ => ModulationBase_build_widgets self
  end.

Definition calculate_data_rate (self : ModObj) : result string :=
  match cls self with
  | C_ModulationBase => ModulationBase_calculate_data_rate self
  | C_QPSKModulation => QPSKModulation_calculate_data_rate self
  | C_FSKModulation => FSKModulation_calculate_data_rate self
  end.

Definition get_diagram (self : ModObj) : string :=
  match cls self with
  | C_ModulationBase => ModulationBase_get_diagram self
  | C_QPSKModulation => QPSKModulation_get_diagram self
  | C_FSKModulation => FSKModulation_get_diagram self
  end.

(** *** Inherited methods of [ModulationBase] *)

Definition ModulationBase_build_diagram (self : ModObj) : result ModObj :=
  let self := set_diagram_var self (StringVar_new (get_diagram self)) in
  let self := set_current_row self (current_row self + 1) in
  Ok self.

(** [ModulationBase.__init__], run for an instance of class [c]. *)
Definition ModulationBase_init (c : pyclass) : result ModObj :=
  let self := mkModObj c 0 None None None None in
  self ← build_widgets self;
  ModulationBase_build_diagram self.

(** [update]: the instance after the two writes, and the traces they fire. *)
Definition ModulationBase_update (self : ModObj)
  : result (ModObj * list callback) :=
  var ← getattr (data_rate_var self);
  text ← calculate_data_rate self;
  let '(var, fired1) := StringVar_set var text in
  let self := set_data_rate_var self var in
  var ← getattr (diagram_var self);
  let '(var, fired2) := StringVar_set var (get_diagram self) in
  let self := set_diagram_var self var in
  Ok (self, fired1 ++ fired2).

(** ** The application *)

Record App := mkApp {
  mod_types : gmap string pyclass;
  selected_mod_type : StringVar;
  current_mod_obj : option ModObj }.

Definition set_current_mod_obj (self : App) (obj : ModObj) : App :=
  mkApp (mod_types self) (selected_mod_type self) (Some obj).
Definition set_selected_mod_type (self : App) (v : StringVar) : App :=
  mkApp (mod_types self) v (current_mod_obj self).

(** How deep callbacks may nest before Python gives up. *)
Definition recursion_limit : nat := 1000.

(** Runs the callbacks a write has fired, each one to its end before the
    next, together with the callbacks their own writes fire. *)
Fixpoint run_callbacks (depth : nat) (cbs : list callback) (self : App)
  : result App :=
  match cbs with
  | [] => Ok self
  | UpdateCurrent :: rest =>
      match depth with
      | O => Raise RecursionError
      | S depth' =>
          obj ← getattr (current_mod_obj self);
          '(obj, fired) ← ModulationBase_update obj;
          self ← run_callbacks depth' fired (set_current_mod_obj self obj);
          run_callbacks depth' rest self
      end
  end.

Definition App_change_mod_type (self : App) (mod_name : string) : result App :=
  let mod_class := default C_ModulationBase (mod_types self !! mod_name) in
  obj ← ModulationBase_init mod_class;
  let self := set_current_mod_obj self obj in
  obj ← getattr (current_mod_obj self);
  var ← getattr (rate_var obj);
  let self :=
    set_current_mod_obj self
      (set_rate_var obj (StringVar_trace_add var UpdateCurrent)) in
  obj ← getattr (current_mod_obj self);
  self ←
    match freq_dev_var obj with
    | Some var =>
        Ok (set_current_mod_obj self
              (set_freq_dev_var obj (StringVar_trace_add var UpdateCurrent)))
    | None => Ok self
    end;
  obj ← getattr (current_mod_obj self);
  '(obj, fired) ← ModulationBase_update obj;
  run_callbacks recursion_limit fired (set_current_mod_obj self obj).

(** The dictionary [App.__init__] stores in [self.mod_types]. *)
Definition App_mod_types : gmap string pyclass :=
  <["BPSK" := C_ModulationBase]>
    (<["QPSK" := C_QPSKModulation]>
       (<["FSK" := C_FSKModulation]> ∅)).

Definition App_init : result App :=
  let self := mkApp App_mod_types (StringVar_new "BPSK") None in
  App_change_mod_type self "BPSK".

(** *** What the user can do

    Typing in an entry writes its variable; picking a menu entry writes
    [selected_mod_type] and calls [change_mod_type] with the entry's name.
    The deviation entry exists only while the current instance has a
    [freq_dev_var], and the menu holds the keys of [mod_types]. *)

Inductive event :=
| EditRate (text : string)
| EditFreqDev (text : string)
| SelectMod (mod_name : string).

Definition write_rate (self : App) (text : string) : result App :=
  obj ← getattr (current_mod_obj self);
  var ← getattr (rate_var obj);
  let '(var, fired) := StringVar_set var text in
  run_callbacks recursion_limit fired
    (set_current_mod_obj self (set_rate_var obj var)).

Definition write_freq_dev (self : App) (text : string) : result App :=
  obj ← getattr (current_mod_obj self);
  var ← getattr (freq_dev_var obj);
  let '(var, fired) := StringVar_set var text in
  run_callbacks recursion_limit fired
    (set_current_mod_obj self (set_freq_dev_var obj var)).

Definition select_mod (self : App) (mod_name : string) : result App :=
  let '(var, fired) := StringVar_set (selected_mod_type self) mod_name in
  self ← run_callbacks recursion_limit fired (set_selected_mod_type self var);
  App_change_mod_type self mod_name.

(** [None]: the widget of the event does not exist in this state. *)
Definition handle (self : App) (ev : event) : option (result App) :=
  match ev with
  | EditRate text =>
      match current_mod_obj self with
      | Some _ => Some (write_rate self text)
      | None => None
      end
  | EditFreqDev text =>
      match current_mod_obj self ≫= freq_dev_var with
      | Some _ => Some (write_freq_dev self text)
      | None => None
      end
  | SelectMod mod_name =>
      match mod_types self !! mod_name with
      | Some _ => Some (select_mod self mod_name)
      | None => None
      end
  end.

(** The states of a session: the one [App.__init__] leaves, and those the
    user's actions lead to. *)
Inductive reachable : App -> Prop :=
| reachable_init self :
    App_init = Ok self -> reachable self
| reachable_step self ev self' :
    reachable self -> handle self ev = Some (Ok self') -> reachable self'.

Fixpoint run (self : App) (evs : list event) : option (result App) :=
  match evs with
  | [] => Some (Ok self)
  | ev :: evs' =>
      match handle self ev with
      | Some (Ok self') => run self' evs'
      | r => r
      end
  end.

(** An instance of class [c] whose rate entry holds [r] and, when the class
    is [FSKModulation], whose deviation entry holds [d]: what
    [ModulationBase.__init__] builds, with the two texts typed in. *)
Definition instance_with (c : pyclass) (r d : string) : ModObj :=
  mkModObj c (if decide (c = C_FSKModulation) then 4 else 3)
    (Some (StringVar_new r))
    (Some (StringVar_new "0.00 bits/s"))
    (Some (StringVar_new (get_diagram (mkModObj c 0 None None None None))))
    (if decide (c = C_FSKModulation) then Some (StringVar_new d) else None).

(** ** States of a session *)

(** The traces [change_mod_type] leaves on an instance: the update
    callback on each entry, none on the two outputs; an FSK instance has
    its deviation entry. *)
Definition wired (obj : ModObj) : Prop :=
  (exists var, rate_var obj = Some var /\ traces var = [UpdateCurrent]) /\
  (exists var, data_rate_var obj = Some var /\ traces var = []) /\
  (exists var, diagram_var obj = Some var /\ traces var = []) /\
  match freq_dev_var obj with
  | Some var => traces var = [UpdateCurrent]
  | None => cls obj <> C_FSKModulation
  end.

(** The two outputs show what the instance computes from its entries. *)
Definition fresh (obj : ModObj) : Prop :=
  exists text,
    calculate_data_rate obj = Ok text /\
    value <$> data_rate_var obj = Some text /\
    value <$> diagram_var obj = Some (get_diagram obj).

Definition consistent (self : App) : Prop :=
  mod_types self = App_mod_types /\
  traces (selected_mod_type self) = [] /\
  exists obj,
    current_mod_obj self = Some obj /\ wired obj /\ fresh obj /\
    mod_types self !! value (selected_mod_type self) = Some (cls obj).

(** The state [App.__init__] leaves. *)
Definition initial_state : App :=
  mkApp App_mod_types (mkStringVar "BPSK" [])
    (Some (mkModObj C_ModulationBase 3
             (Some (mkStringVar "0" [UpdateCurrent]))
             (Some (mkStringVar "0.00 bits/s" []))
             (Some (mkStringVar "*                *" []))
             None)).

(** A session: "100" typed in the rate entry, FSK picked, then "100" and
    "500" typed in its two entries. *)
Definition session_events : list event :=
  [EditRate "100"; SelectMod "FSK"; EditRate "100"; EditFreqDev "500"].

Definition session_state : App :=
  mkApp App_mod_types (mkStringVar "FSK" [])
    (Some (mkModObj C_FSKModulation 4
             (Some (mkStringVar "100" [UpdateCurrent]))
             (Some (mkStringVar "100.50 bits/s" []))
             (Some (mkStringVar
                      ("FSK constellation diagram" +:+ nl +:+ "(not defined)")
                      []))
             (Some (mkStringVar "500" [UpdateCurrent])))).

(** ** The program *)

(** What [App.change_mod_type] installs for class [c]: "0" in each entry,
    the update callback traced on each entry, the outputs of the first
    update. *)
Definition activated (c : pyclass) : ModObj :=
  mkModObj c (if decide (c = C_FSKModulation) then 4 else 3)
    (Some (mkStringVar "0" [UpdateCurrent]))
    (Some (mkStringVar "0.00 bits/s" []))
    (Some (mkStringVar (get_diagram (mkModObj c 0 None None None None)) []))
    (if decide (c = C_FSKModulation)
     then Some (mkStringVar "0" [UpdateCurrent]) else None).

(** [main]: the window is built, then the event loop serves what the user
    does, one event after the other. *)
Definition main (evs : list event) : option (result App) :=
  match App_init with
  | Ok app => run app evs
  | Raise e => Some (Raise e)
  end.

(** ** The shape of a printed number

    An optional "-", one digit or more, a point, two digits. *)

Fixpoint after_point (seen : bool) (s : string) : option string :=
  match s with
  | String c s' =>
      if isdigit c then after_point true s'
      else if Ascii.eqb c "." && seen then Some s' else None
  | EmptyString => None
  end.

Definition two_decimals (s : string) : bool :=
  let digits := match s with String "-" t => t | _ => s end in
  match after_point false digits with
  | Some (String a (String b EmptyString)) => isdigit a && isdigit b
  | _ => false
  end.

(** ** The value of a float

    A finite binary64 number is a whole number of units of 2^-1074, the
    smallest positive one. *)
Definition ulps (x : float) : option Z :=
  match x with
  | S754_zero _ => Some 0
  | S754_finite neg m e =>
      Some ((if neg then -1 else 1) * Zpos m * 2 ^ (e + 1074))
  | _ => None
  end.

(** * Properties *)

(** ** The builtins *)

Section Builtins.

Lemma float__Ok s x : float_of_string s = Some x -> float_ s = Ok x.
Proof. unfold float_. intros ->. reflexivity. Qed.

Lemma float__Raise s : float_of_string s = None -> float_ s = Raise ValueError.
Proof. unfold float_. intros ->. reflexivity. Qed.

(** [float] raises nothing but [ValueError]. *)
Lemma float__cases s :
  (exists x, float_of_string s = Some x /\ float_ s = Ok x) \/
  (float_of_string s = None /\ float_ s = Raise ValueError).
Proof.
  unfold float_. destruct (float_of_string s) as [x|]; eauto.
Qed.

(** The rounded quotient is within half a unit of the exact one. *)
Lemma round_half_even_nearest num den :
  0 < den -> Z.abs (2 * (num - den * round_half_even num den)) <= den.
Proof.
  intros Hden. unfold round_half_even.
  pose proof (Z.div_mod num den ltac:(lia)) as Hdm.
  pose proof (Z.mod_pos_bound num den Hden) as Hr.
  destruct (Z.compare_spec (2 * (num mod den)) den);
    [destruct (Z.even (num / den))| |]; lia.
Qed.

(** On a tie the even neighbour is taken. *)
Lemma round_half_even_tie num den :
  0 < den -> 2 * (num mod den) = den ->
  Z.even (round_half_even num den) = true.
Proof.
  intros Hden Htie. unfold round_half_even.
  rewrite Htie, Z.compare_refl.
  destruct (Z.even (num / den)) eqn:E; [exact E|].
  rewrite Z.even_add, E. reflexivity.
Qed.

Lemma append_cons c s t : String c s +:+ t = String c (s +:+ t).
Proof. reflexivity. Qed.

Lemma append_nil t : EmptyString +:+ t = t.
Proof. reflexivity. Qed.

(** A text that ends in the unit is not the error text. *)
Lemma bits_not_invalid s : s +:+ " bits/s" <> "Invalid input".
Proof.
  intros H.
  do 14 (destruct s as [|? s]; [discriminate H|]).
  rewrite !append_cons in H. discriminate H.
Qed.

(** Adding a positive zero changes nothing but a negative zero. *)
Lemma add_zero_r x :
  x <> S754_zero true -> add x (S754_zero false) = x.
Proof.
  destruct x as [[]| | |]; cbn; congruence.
Qed.

Lemma mul_comm x y : mul x y = mul y x.
Proof.
  destruct x as [sx|sx| |sx mx ex], y as [sy|sy| |sy my ey]; cbn;
    rewrite ?(xorb_comm sx sy); try reflexivity.
  rewrite (Pos.mul_comm mx my), (Z.add_comm ex ey). reflexivity.
Qed.

(** The deviation term of an unreadable deviation. *)
Lemma zero_deviation : div (of_int 0) lit_1000_0 = S754_zero false.
Proof. reflexivity. Qed.

(** *** The builtins at known values *)

Example literals_exact : lit_2_0 = of_int 2 /\ lit_1000_0 = of_int 1000.
Proof. split; reflexivity. Qed.

(** 0.1 is 0x1.999999999999ap-4, and 1e23 is rounded down. *)
Example float_of_string_inexact :
  float_of_string "0.1" = Some (S754_finite false 7205759403792794 (-56)) /\
  float_of_string "1e23" = Some (S754_finite false 5960464477539062 24) /\
  float_of_string "9007199254740993" =
    Some (S754_finite false 4503599627370496 1).
Proof. repeat split; vm_compute; reflexivity. Qed.

(** Overflow reads as an infinity, underflow as a signed zero. *)
Example float_of_string_range :
  float_of_string "1.7976931348623157e308" =
    Some (S754_finite false 9007199254740991 971) /\
  float_of_string "1.7976931348623159e308" = Some (S754_infinity false) /\
  float_of_string "5e-324" = Some (S754_finite false 1 (-1074)) /\
  float_of_string "2e-324" = Some (S754_zero false) /\
  float_of_string "-1e-400" = Some (S754_zero true).
Proof. repeat split; vm_compute; reflexivity. Qed.

Example float_of_string_rejects :
  List.map float_of_string
    [EmptyString; " "; "abc"; "1e"; "1e+"; "e5"; "."; "--1"; "+-1"; "1 2";
     "0x10"; "1__0"; "_1"; "1_"; "1_.5"; "infin"; "1,5"]
  = List.map (fun _ => None)
    [EmptyString; " "; "abc"; "1e"; "1e+"; "e5"; "."; "--1"; "+-1"; "1 2";
     "0x10"; "1__0"; "_1"; "1_"; "1_.5"; "infin"; "1,5"].
Proof. vm_compute. reflexivity. Qed.

(** Two decimals of the exact binary value: 0.125 and 0.375 are ties,
    2.675 and 0.015 lie below the tie, 0.005 above it. *)
Example format_2f_rounding :
  List.map (fun s => format_2f <$> float_of_string s)
    ["0.125"; "0.375"; "2.675"; "0.015"; "0.005"; "999.995"; "-0.001";
     "1e23"; "-inf"]
  = [Some "0.12"; Some "0.38"; Some "2.67"; Some "0.01"; Some "0.01";
     Some "1000.00"; Some "-0.00"; Some "99999999999999991611392.00";
     Some "-inf"].
Proof. vm_compute. reflexivity. Qed.

(** Blanks and digits of Unicode: a no-break space before "100", fullwidth
    digits, Arabic-Indic digits around an ASCII point, mathematical bold
    digits; an underscore may stand between digits of two scripts. *)
Example float_of_string_unicode :
  List.map (fun s => format_2f <$> float_of_string s)
    [encode_utf8 [160] +:+ "100";
     encode_utf8 [65297; 65296; 65296];
     encode_utf8 [8195] +:+ " 1e3" +:+ encode_utf8 [12288];
     encode_utf8 [133; 45; 65297; 46; 65301; 101; 65297];
     encode_utf8 [1635; 46; 1637];
     encode_utf8 [120782; 49];
     "1_" +:+ encode_utf8 [65298]]
  = [Some "100.00"; Some "100.00"; Some "1000.00"; Some "-15.00";
     Some "3.50"; Some "1.00"; Some "12.00"].
Proof. vm_compute. reflexivity. Qed.

(** What is refused: a lone blank, the separators U+001C and U+007F, which
    are not stripped, a letter, the zero-width space, the Arabic decimal
    separator, the fullwidth full stop, a blank after the sign, and bytes
    that are no UTF-8 text. *)
Example float_of_string_unicode_rejects :
  List.map float_of_string
    [encode_utf8 [160]; encode_utf8 [28; 49]; encode_utf8 [49; 28];
     encode_utf8 [127; 49]; encode_utf8 [233; 49]; encode_utf8 [65297; 233];
     encode_utf8 [49; 8203]; encode_utf8 [6158; 49];
     encode_utf8 [1635; 1643; 1637]; encode_utf8 [65297; 65294; 65301];
     encode_utf8 [45; 160; 49];
     String (chr 160) "100"; String (chr 194) "100";
     String (chr 192) (String (chr 177) EmptyString)]
  = List.map (fun _ => None)
    [1; 2; 3; 4; 5; 6; 7; 8; 9; 10; 11; 12; 13; 14].
Proof. vm_compute. reflexivity. Qed.

(** *** Blanks around a number *)












(** *** The code points of a text *)








Lemma decode_utf8_nil : decode_utf8 EmptyString = Some [].
Proof. reflexivity. Qed.













(** *** Blanks around a text *)




End Builtins.

(** ** The modulation classes *)

Section Classes.

(** Reading an entry as a number: the one place a method can fail. *)
Lemma read_entry_Ok (field : option StringVar) var x :
  field = Some var -> float_of_string (value var) = Some x ->
  (var ← getattr field; float_ (StringVar_get var)) = Ok x.
Proof. intros -> Hx. cbn. apply float__Ok, Hx. Qed.

Lemma read_entry_Raise (field : option StringVar) var :
  field = Some var -> float_of_string (value var) = None ->
  (var ← getattr field; float_ (StringVar_get var)) = Raise ValueError.
Proof. intros -> Hx. cbn. apply float__Raise, Hx. Qed.

Lemma ModulationBase_rate_parses self var x :
  rate_var self = Some var -> float_of_string (value var) = Some x ->
  ModulationBase_calculate_data_rate self = Ok (format_2f x +:+ " bits/s").
Proof.
  intros Hvar Hx. unfold ModulationBase_calculate_data_rate.
  rewrite (read_entry_Ok _ _ _ Hvar Hx). reflexivity.
Qed.

Lemma QPSKModulation_rate_parses self var x :
  rate_var self = Some var -> float_of_string (value var) = Some x ->
  QPSKModulation_calculate_data_rate self =
  Ok (format_2f (mul x lit_2_0) +:+ " bits/s").
Proof.
  intros Hvar Hx. unfold QPSKModulation_calculate_data_rate.
  rewrite (read_entry_Ok _ _ _ Hvar Hx). reflexivity.
Qed.

Lemma FSKModulation_both_parse self var dvar x y :
  rate_var self = Some var -> freq_dev_var self = Some dvar ->
  float_of_string (value var) = Some x ->
  float_of_string (value dvar) = Some y ->
  FSKModulation_calculate_data_rate self =
  Ok (format_2f (add x (div y lit_1000_0)) +:+ " bits/s").
Proof.
  intros Hvar Hdvar Hx Hy. unfold FSKModulation_calculate_data_rate.
  rewrite (read_entry_Ok _ _ _ Hvar Hx), (read_entry_Ok _ _ _ Hdvar Hy).
  reflexivity.
Qed.

Lemma FSKModulation_deviation_fails self var dvar x :
  rate_var self = Some var -> freq_dev_var self = Some dvar ->
  float_of_string (value var) = Some x ->
  float_of_string (value dvar) = None ->
  FSKModulation_calculate_data_rate self =
  Ok (format_2f (add x (div (of_int 0) lit_1000_0)) +:+ " bits/s").
Proof.
  intros Hvar Hdvar Hx Hy. unfold FSKModulation_calculate_data_rate.
  rewrite (read_entry_Ok _ _ _ Hvar Hx), (read_entry_Raise _ _ Hdvar Hy).
  reflexivity.
Qed.

(** With an unreadable rate every class answers the same. *)
Lemma rate_fails self var :
  rate_var self = Some var -> float_of_string (value var) = None ->
  calculate_data_rate self = Ok "Invalid input".
Proof.
  intros Hvar Hx.
  unfold calculate_data_rate, ModulationBase_calculate_data_rate,
    QPSKModulation_calculate_data_rate, FSKModulation_calculate_data_rate.
  rewrite (read_entry_Raise _ _ Hvar Hx). destruct (cls self); reflexivity.
Qed.

(** A readable rate never gives the error text, and nothing is raised as
    long as the attributes the method reads exist. *)
Lemma rate_parses self var x :
  rate_var self = Some var -> float_of_string (value var) = Some x ->
  (cls self = C_FSKModulation -> is_Some (freq_dev_var self)) ->
  exists text, calculate_data_rate self = Ok text /\ text <> "Invalid input".
Proof.
  intros Hvar Hx Hdev. unfold calculate_data_rate.
  destruct (cls self) eqn:Hcls.
  - rewrite (ModulationBase_rate_parses _ _ _ Hvar Hx).
    eexists; split; [reflexivity | apply bits_not_invalid].
  - rewrite (QPSKModulation_rate_parses _ _ _ Hvar Hx).
    eexists; split; [reflexivity | apply bits_not_invalid].
  - destruct (Hdev eq_refl) as [dvar Hdvar].
    destruct (float_of_string (value dvar)) as [y|] eqn:Hy.
    + rewrite (FSKModulation_both_parse _ _ _ _ _ Hvar Hdvar Hx Hy).
      eexists; split; [reflexivity | apply bits_not_invalid].
    + rewrite (FSKModulation_deviation_fails _ _ _ _ Hvar Hdvar Hx Hy).
      eexists; split; [reflexivity | apply bits_not_invalid].
Qed.

Lemma calculate_data_rate_total self var :
  rate_var self = Some var ->
  (cls self = C_FSKModulation -> is_Some (freq_dev_var self)) ->
  exists text,
    calculate_data_rate self = Ok text /\
    (text = "Invalid input" <-> float_of_string (value var) = None).
Proof.
  intros Hvar Hdev.
  destruct (float_of_string (value var)) as [x|] eqn:Hx.
  - destruct (rate_parses _ _ _ Hvar Hx Hdev) as (text & Htext & Hne).
    exists text. split; [exact Htext|]. split; [contradiction | discriminate].
  - exists "Invalid input". split; [apply (rate_fails _ _ Hvar Hx)|].
    split; reflexivity.
Qed.

(** The text computed depends on the class and on the two entries only. *)
Lemma calculate_data_rate_inputs a b :
  cls a = cls b ->
  value <$> rate_var a = value <$> rate_var b ->
  value <$> freq_dev_var a = value <$> freq_dev_var b ->
  calculate_data_rate a = calculate_data_rate b.
Proof.
  destruct a as [ca na [[ra ta]|] da ga [[fa ua]|]],
           b as [cb nb [[rb tb]|] db gb [[fb ub]|]];
    cbn [cls rate_var freq_dev_var fmap option_fmap option_map value];
    intros -> Hr Hf; try discriminate; simplify_eq;
    reflexivity.
Qed.

Lemma get_diagram_class a b : cls a = cls b -> get_diagram a = get_diagram b.
Proof. unfold get_diagram. intros ->. reflexivity. Qed.

End Classes.

(** ** The data-rate formulas *)

(** C1. When the rate and the deviation both read as numbers, the FSK
    instance answers the rate plus a thousandth of the deviation, printed
    with two decimals and followed by " bits/s". *)
Theorem FSK_data_rate_both_parse self var dvar x y :
  cls self = C_FSKModulation ->
  rate_var self = Some var -> freq_dev_var self = Some dvar ->
  float_of_string (value var) = Some x ->
  float_of_string (value dvar) = Some y ->
  calculate_data_rate self =
  Ok (format_2f (add x (div y lit_1000_0)) +:+ " bits/s").
Proof.
  intros Hcls Hvar Hdvar Hx Hy. unfold calculate_data_rate. rewrite Hcls.
  exact (FSKModulation_both_parse _ _ _ _ _ Hvar Hdvar Hx Hy).
Qed.

(** The example of the specification: rate "100", deviation "500". *)
Lemma FSK_data_rate_both_parse_witness :
  calculate_data_rate (instance_with C_FSKModulation "100" "500") =
  Ok "100.50 bits/s".
Proof.
  exact (FSK_data_rate_both_parse
           (instance_with C_FSKModulation "100" "500")
           (StringVar_new "100") (StringVar_new "500")
           (S754_finite false 7036874417766400 (-46))
           (S754_finite false 8796093022208000 (-44))
           eq_refl eq_refl eq_refl eq_refl eq_refl).
Defined.

(** C2, as the program has it. With an unreadable rate the FSK instance
    answers "Invalid input" whatever the deviation is; with a readable rate
    and an unreadable deviation, the deviation counts as 0 and the answer
    is the rate plus 0/1000, printed. That is the rate printed alone for
    every rate but the negative zero, where the sum is the positive zero
    and "0.00 bits/s" is answered. *)
Theorem FSK_asymmetric_errors self var :
  cls self = C_FSKModulation -> rate_var self = Some var ->
  (float_of_string (value var) = None ->
   calculate_data_rate self = Ok "Invalid input") /\
  (forall dvar x,
     freq_dev_var self = Some dvar ->
     float_of_string (value var) = Some x ->
     float_of_string (value dvar) = None ->
     calculate_data_rate self =
       Ok (format_2f (add x (div (of_int 0) lit_1000_0)) +:+ " bits/s") /\
     (x <> S754_zero true ->
      calculate_data_rate self = Ok (format_2f x +:+ " bits/s")) /\
     (x = S754_zero true ->
      calculate_data_rate self = Ok "0.00 bits/s")).
Proof.
  intros Hcls Hvar. split.
  - intros Hx. exact (rate_fails _ _ Hvar Hx).
  - intros dvar x Hdvar Hx Hy.
    assert (calculate_data_rate self =
            Ok (format_2f (add x (div (of_int 0) lit_1000_0)) +:+ " bits/s"))
      as Hsum.
    { unfold calculate_data_rate. rewrite Hcls.
      exact (FSKModulation_deviation_fails _ _ _ _ Hvar Hdvar Hx Hy). }
    split; [exact Hsum|]. rewrite Hsum, zero_deviation. split.
    + intros Hnz. rewrite (add_zero_r _ Hnz). reflexivity.
    + intros ->. reflexivity.
Qed.

Lemma FSK_asymmetric_errors_witness :
  calculate_data_rate (instance_with C_FSKModulation "abc" "500") =
    Ok "Invalid input" /\
  calculate_data_rate (instance_with C_FSKModulation "100" "abc") =
    Ok "100.00 bits/s".
Proof.
  split.
  - exact (proj1 (FSK_asymmetric_errors
                    (instance_with C_FSKModulation "abc" "500")
                    (StringVar_new "abc") eq_refl eq_refl) eq_refl).
  - exact (proj1 (proj2 (proj2 (FSK_asymmetric_errors
                    (instance_with C_FSKModulation "100" "abc")
                    (StringVar_new "100") eq_refl eq_refl)
                    (StringVar_new "abc")
                    (S754_finite false 7036874417766400 (-46))
                    eq_refl eq_refl eq_refl))
                 ltac:(discriminate)).
Defined.

(** C2 as written fails at the rate "-0" with the deviation "abc": the rate
    reads as the negative zero, which alone is printed "-0.00", and the
    instance answers "0.00 bits/s". *)
Lemma FSK_negative_zero_rate :
  cls (instance_with C_FSKModulation "-0" "abc") = C_FSKModulation /\
  float_of_string "-0" = Some (S754_zero true) /\
  float_of_string "abc" = None /\
  format_2f (S754_zero true) +:+ " bits/s" = "-0.00 bits/s" /\
  calculate_data_rate (instance_with C_FSKModulation "-0" "abc") =
    Ok "0.00 bits/s" /\
  calculate_data_rate (instance_with C_FSKModulation "-0" "abc") <>
    Ok (format_2f (S754_zero true) +:+ " bits/s").
Proof.
  repeat (split; [reflexivity|]). vm_compute. discriminate.
Qed.

(** C3. When the rate reads as a number, the base (BPSK) instance answers
    that number unchanged, printed with two decimals and followed by
    " bits/s". *)
Theorem BPSK_data_rate_identity self var x :
  cls self = C_ModulationBase ->
  rate_var self = Some var ->
  float_of_string (value var) = Some x ->
  calculate_data_rate self = Ok (format_2f x +:+ " bits/s").
Proof.
  intros Hcls Hvar Hx. unfold calculate_data_rate. rewrite Hcls.
  exact (ModulationBase_rate_parses _ _ _ Hvar Hx).
Qed.

Lemma BPSK_data_rate_identity_witness :
  calculate_data_rate (instance_with C_ModulationBase "100" "0") =
  Ok "100.00 bits/s".
Proof.
  exact (BPSK_data_rate_identity
           (instance_with C_ModulationBase "100" "0")
           (StringVar_new "100")
           (S754_finite false 7036874417766400 (-46))
           eq_refl eq_refl eq_refl).
Defined.

(** C4. When the rate reads as a number, the QPSK instance answers twice
    that number, printed with two decimals and followed by " bits/s". *)
Theorem QPSK_data_rate_double self var x :
  cls self = C_QPSKModulation ->
  rate_var self = Some var ->
  float_of_string (value var) = Some x ->
  calculate_data_rate self = Ok (format_2f (mul lit_2_0 x) +:+ " bits/s").
Proof.
  intros Hcls Hvar Hx. unfold calculate_data_rate. rewrite Hcls.
  rewrite (mul_comm lit_2_0 x).
  exact (QPSKModulation_rate_parses _ _ _ Hvar Hx).
Qed.

Lemma QPSK_data_rate_double_witness :
  calculate_data_rate (instance_with C_QPSKModulation "100" "0") =
  Ok "200.00 bits/s".
Proof.
  exact (QPSK_data_rate_double
           (instance_with C_QPSKModulation "100" "0")
           (StringVar_new "100")
           (S754_finite false 7036874417766400 (-46))
           eq_refl eq_refl eq_refl).
Defined.

(** C5. For an instance of any of the three classes and any text in its
    entries, [calculate_data_rate] raises nothing: it returns a text, and
    that text is "Invalid input" exactly when the rate does not read as a
    number. *)
Theorem calculate_data_rate_never_raises self var :
  rate_var self = Some var ->
  (cls self = C_FSKModulation -> is_Some (freq_dev_var self)) ->
  exists text,
    calculate_data_rate self = Ok text /\
    (float_of_string (value var) = None -> text = "Invalid input") /\
    (text = "Invalid input" -> float_of_string (value var) = None).
Proof.
  intros Hvar Hdev.
  destruct (calculate_data_rate_total _ _ Hvar Hdev) as (text & Htext & Hiff).
  exists text. split; [exact Htext|]. split; apply Hiff.
Qed.

Lemma calculate_data_rate_never_raises_witness :
  exists text,
    calculate_data_rate (instance_with C_FSKModulation "abc" "1") = Ok text /\
    (float_of_string "abc" = None -> text = "Invalid input") /\
    (text = "Invalid input" -> float_of_string "abc" = None).
Proof.
  exact (calculate_data_rate_never_raises
           (instance_with C_FSKModulation "abc" "1")
           (StringVar_new "abc") eq_refl
           (fun _ => ex_intro _ (StringVar_new "1") eq_refl)).
Defined.

(** C7. The diagram of an instance is fixed by its class: whatever the
    entries and the other attributes hold, [get_diagram] returns the text
    written in the class. *)
Theorem get_diagram_constant :
  (forall c row rate out dia dev row' rate' out' dia' dev',
     get_diagram (mkModObj c row rate out dia dev) =
     get_diagram (mkModObj c row' rate' out' dia' dev')) /\
  (forall row rate out dia dev,
     get_diagram (mkModObj C_ModulationBase row rate out dia dev) =
     "*                *") /\
  (forall row rate out dia dev,
     get_diagram (mkModObj C_QPSKModulation row rate out dia dev) =
     "    *" +:+ nl +:+ "*       *" +:+ nl +:+ "    *") /\
  (forall row rate out dia dev,
     get_diagram (mkModObj C_FSKModulation row rate out dia dev) =
     "FSK constellation diagram" +:+ nl +:+ "(not defined)").
Proof.
  split; [intros; apply get_diagram_class; reflexivity|].
  repeat split; intros; reflexivity.
Qed.

(** ** The session *)

Section Session.

Lemma wired_total obj :
  wired obj -> exists text, calculate_data_rate obj = Ok text.
Proof.
  intros ((var & Hvar & _) & _ & _ & Hdev).
  destruct (calculate_data_rate_total obj var Hvar) as (text & Htext & _).
  - intros Hcls. destruct (freq_dev_var obj); [eauto | contradiction].
  - eauto.
Qed.

(** [update] on a wired instance: no trace fires, the entries stay, the
    outputs are brought up to date. *)
Lemma update_wired obj :
  wired obj ->
  exists obj',
    ModulationBase_update obj = Ok (obj', []) /\
    wired obj' /\ fresh obj' /\ cls obj' = cls obj /\
    rate_var obj' = rate_var obj /\ freq_dev_var obj' = freq_dev_var obj.
Proof.
  intros Hw. destruct (wired_total obj Hw) as (text & Htext).
  destruct Hw as ((rv & Hrv & Hrt) & (dv & Hdv & Hdt) & (gv & Hgv & Hgt) & Hdev).
  destruct obj as [c n orv odv ogv ofv]. cbn [rate_var data_rate_var
    diagram_var freq_dev_var cls] in *. subst orv odv ogv.
  unfold ModulationBase_update.
  cbn [data_rate_var getattr mbind result_bind]. rewrite Htext.
  cbn [mbind result_bind StringVar_set set_data_rate_var set_diagram_var
       diagram_var data_rate_var rate_var freq_dev_var cls current_row
       getattr].
  rewrite Hdt, Hgt. eexists. split; [reflexivity|].
  split; [|split; [|auto]].
  - unfold wired. cbn [rate_var data_rate_var diagram_var freq_dev_var cls
      traces]. eauto 10.
  - exists text. split; [exact Htext|]. split; reflexivity.
Qed.

Lemma run_update depth self obj :
  current_mod_obj self = Some obj -> wired obj ->
  exists obj',
    run_callbacks (S depth) [UpdateCurrent] self =
      Ok (set_current_mod_obj self obj') /\
    wired obj' /\ fresh obj' /\ cls obj' = cls obj /\
    rate_var obj' = rate_var obj /\ freq_dev_var obj' = freq_dev_var obj.
Proof.
  intros Hcur Hw. destruct (update_wired obj Hw) as (obj' & Hupd & Hrest).
  exists obj'. split; [|exact Hrest].
  cbn [run_callbacks]. rewrite Hcur. cbn [getattr mbind result_bind].
  rewrite Hupd. cbn [mbind result_bind run_callbacks].
  destruct depth; reflexivity.
Qed.

(** What [change_mod_type] installs: a wired, fresh instance of the class
    the name stands for, with "0" in its entries. *)
Lemma change_mod_type_installs self mod_name :
  exists obj,
    App_change_mod_type self mod_name = Ok (set_current_mod_obj self obj) /\
    cls obj = default C_ModulationBase (mod_types self !! mod_name) /\
    wired obj /\ fresh obj /\
    value <$> rate_var obj = Some "0" /\
    value <$> freq_dev_var obj =
      (if decide (cls obj = C_FSKModulation) then Some "0" else None).
Proof.
  unfold App_change_mod_type.
  destruct (default C_ModulationBase (mod_types self !! mod_name));
    (eexists; split; [vm_compute; reflexivity|]);
    (split; [reflexivity|]);
    (split; [unfold wired; cbn; repeat split; eauto; discriminate|]);
    (split; [eexists; repeat split; vm_compute; reflexivity|]);
    split; reflexivity.
Qed.

Lemma wired_set_rate obj var text :
  wired obj -> rate_var obj = Some var ->
  wired (set_rate_var obj (mkStringVar text (traces var))).
Proof.
  intros ((rv & Hrv & Hrt) & Hout & Hdia & Hdev) Hvar.
  assert (rv = var) as -> by congruence.
  unfold wired. cbn [set_rate_var rate_var data_rate_var diagram_var
    freq_dev_var cls traces]. eauto 10.
Qed.

Lemma wired_set_freq_dev obj var text :
  wired obj -> freq_dev_var obj = Some var ->
  wired (set_freq_dev_var obj (mkStringVar text (traces var))).
Proof.
  intros (Hrate & Hout & Hdia & Hdev) Hvar. rewrite Hvar in Hdev.
  unfold wired. cbn [set_freq_dev_var rate_var data_rate_var diagram_var
    freq_dev_var cls traces]. eauto 10.
Qed.

(** Typing in the rate entry of a wired instance: the text lands in
    [rate_var] and the outputs follow. *)
Lemma write_rate_wired self text obj :
  current_mod_obj self = Some obj -> wired obj ->
  exists obj',
    write_rate self text = Ok (set_current_mod_obj self obj') /\
    wired obj' /\ fresh obj' /\ cls obj' = cls obj /\
    value <$> rate_var obj' = Some text /\
    freq_dev_var obj' = freq_dev_var obj.
Proof.
  intros Hcur Hw. pose proof Hw as ((rv & Hrv & Hrt) & _).
  unfold write_rate. rewrite Hcur. cbn [getattr mbind result_bind].
  rewrite Hrv. cbn [getattr mbind result_bind StringVar_set].
  edestruct (run_update 999 (set_current_mod_obj self
               (set_rate_var obj (mkStringVar text (traces rv)))))
    as (obj' & Hrun & Hw' & Hf' & Hcls & Hrate & Hfd);
    [reflexivity | exact (wired_set_rate obj rv text Hw Hrv) |].
  exists obj'. split; [etrans; [|exact Hrun]; f_equal; exact Hrt|].
  split; [exact Hw'|]. split; [exact Hf'|]. split; [exact Hcls|].
  split; [rewrite Hrate; reflexivity | exact Hfd].
Qed.

(** Typing in the deviation entry, when the instance has one. *)
Lemma write_freq_dev_wired self text obj var :
  current_mod_obj self = Some obj -> wired obj ->
  freq_dev_var obj = Some var ->
  exists obj',
    write_freq_dev self text = Ok (set_current_mod_obj self obj') /\
    wired obj' /\ fresh obj' /\ cls obj' = cls obj /\
    value <$> freq_dev_var obj' = Some text /\
    rate_var obj' = rate_var obj.
Proof.
  intros Hcur Hw Hvar.
  pose proof Hw as (_ & _ & _ & Hdev). rewrite Hvar in Hdev.
  unfold write_freq_dev. rewrite Hcur. cbn [getattr mbind result_bind].
  rewrite Hvar. cbn [getattr mbind result_bind StringVar_set].
  edestruct (run_update 999 (set_current_mod_obj self
               (set_freq_dev_var obj (mkStringVar text (traces var)))))
    as (obj' & Hrun & Hw' & Hf' & Hcls & Hrate & Hfd);
    [reflexivity | exact (wired_set_freq_dev obj var text Hw Hvar) |].
  exists obj'. split; [etrans; [|exact Hrun]; f_equal; exact Hdev|].
  split; [exact Hw'|]. split; [exact Hf'|]. split; [exact Hcls|].
  split; [rewrite Hfd; reflexivity | exact Hrate].
Qed.

Lemma consistent_set_obj self obj obj' :
  consistent self -> current_mod_obj self = Some obj ->
  wired obj' -> fresh obj' -> cls obj' = cls obj ->
  consistent (set_current_mod_obj self obj').
Proof.
  intros (Htypes & Hsel & obj0 & Hcur0 & _ & _ & Hname) Hcur Hw Hf Hcls.
  assert (obj0 = obj) as -> by congruence.
  split; [exact Htypes|]. split; [exact Hsel|].
  exists obj'. split; [reflexivity|]. split; [exact Hw|]. split; [exact Hf|].
  cbn [set_current_mod_obj mod_types selected_mod_type].
  rewrite Hcls. exact Hname.
Qed.

(** [change_mod_type] on its own leaves the selection as it was; the
    state is consistent again when the name stands for the class the
    selection stands for. *)
Lemma change_mod_type_consistent self mod_name :
  mod_types self = App_mod_types ->
  traces (selected_mod_type self) = [] ->
  mod_types self !! value (selected_mod_type self) =
    Some (default C_ModulationBase (mod_types self !! mod_name)) ->
  exists self' obj',
    App_change_mod_type self mod_name = Ok self' /\ consistent self' /\
    current_mod_obj self' = Some obj' /\
    cls obj' = default C_ModulationBase (mod_types self !! mod_name) /\
    selected_mod_type self' = selected_mod_type self /\
    value <$> rate_var obj' = Some "0".
Proof.
  intros Htypes Hsel Hname.
  destruct (change_mod_type_installs self mod_name)
    as (obj & Hrun & Hcls & Hw & Hf & Hrate & _).
  exists (set_current_mod_obj self obj), obj.
  split; [exact Hrun|]. split; [|auto].
  split; [exact Htypes|]. split; [exact Hsel|].
  exists obj. split; [reflexivity|]. split; [exact Hw|]. split; [exact Hf|].
  cbn [set_current_mod_obj mod_types selected_mod_type].
  rewrite Hcls. exact Hname.
Qed.

(** Picking a menu entry. *)
Lemma select_mod_consistent self mod_name c :
  consistent self -> mod_types self !! mod_name = Some c ->
  exists self' obj',
    select_mod self mod_name = Ok self' /\ consistent self' /\
    current_mod_obj self' = Some obj' /\ cls obj' = c /\
    value (selected_mod_type self') = mod_name /\
    value <$> rate_var obj' = Some "0".
Proof.
  intros (Htypes & Hsel & _) Hc. unfold select_mod.
  cbn [StringVar_set]. rewrite Hsel.
  cbn [run_callbacks mbind result_bind].
  edestruct (change_mod_type_consistent
               (set_selected_mod_type self (mkStringVar mod_name []))
               mod_name)
    as (self' & obj' & Hrun & Hcons & Hcur & Hcls & Hsel' & Hrate).
  - exact Htypes.
  - reflexivity.
  - cbn [set_selected_mod_type mod_types selected_mod_type value].
    rewrite Hc. reflexivity.
  - exists self', obj'. split; [exact Hrun|]. split; [exact Hcons|].
    split; [exact Hcur|].
    cbn [set_selected_mod_type mod_types] in Hcls. rewrite Hc in Hcls.
    split; [exact Hcls|]. split; [rewrite Hsel'; reflexivity | exact Hrate].
Qed.

Lemma App_init_consistent :
  exists self, App_init = Ok self /\ consistent self.
Proof.
  unfold App_init.
  edestruct (change_mod_type_consistent
               (mkApp App_mod_types (StringVar_new "BPSK") None) "BPSK")
    as (self' & obj' & Hrun & Hcons & _); [reflexivity..|].
  exists self'. split; [exact Hrun | exact Hcons].
Qed.

(** No event the window offers ends in an exception. *)
Lemma handle_consistent self ev r :
  consistent self -> handle self ev = Some r ->
  exists self', r = Ok self' /\ consistent self'.
Proof.
  intros Hcons Hev. destruct ev as [text|text|mod_name]; cbn [handle] in Hev.
  - destruct (current_mod_obj self) as [obj|] eqn:Hcur; [|discriminate].
    injection Hev as <-.
    pose proof Hcons as (_ & _ & obj0 & Hcur0 & Hw & _).
    assert (obj0 = obj) as -> by congruence.
    destruct (write_rate_wired self text obj Hcur Hw)
      as (obj' & Hrun & Hw' & Hf' & Hcls & _).
    eexists; split; [exact Hrun|].
    exact (consistent_set_obj self obj obj' Hcons Hcur Hw' Hf' Hcls).
  - destruct (current_mod_obj self) as [obj|] eqn:Hcur; [|discriminate].
    cbn in Hev.
    destruct (freq_dev_var obj) as [var|] eqn:Hvar; [|discriminate].
    injection Hev as <-.
    pose proof Hcons as (_ & _ & obj0 & Hcur0 & Hw & _).
    assert (obj0 = obj) as -> by congruence.
    destruct (write_freq_dev_wired self text obj var Hcur Hw Hvar)
      as (obj' & Hrun & Hw' & Hf' & Hcls & _).
    eexists; split; [exact Hrun|].
    exact (consistent_set_obj self obj obj' Hcons Hcur Hw' Hf' Hcls).
  - destruct (mod_types self !! mod_name) as [c|] eqn:Hc; [|discriminate].
    injection Hev as <-.
    destruct (select_mod_consistent self mod_name c Hcons Hc)
      as (self' & _ & Hrun & Hcons' & _). eauto.
Qed.

Lemma reachable_consistent self : reachable self -> consistent self.
Proof.
  induction 1 as [self Hinit | self ev self' _ IH Hev].
  - destruct App_init_consistent as (self0 & Hrun & Hcons).
    congruence.
  - destruct (handle_consistent self ev _ IH Hev) as (self1 & Heq & Hcons).
    congruence.
Qed.

Lemma run_reachable evs : forall self self',
  reachable self -> run self evs = Some (Ok self') -> reachable self'.
Proof.
  induction evs as [|ev evs IH]; intros self self' Hr Hrun; cbn [run] in Hrun.
  - congruence.
  - destruct (handle self ev) as [[self1|e]|] eqn:Hev; try discriminate.
    exact (IH self1 self' (reachable_step self ev self1 Hr Hev) Hrun).
Qed.

End Session.

(** ** The displayed outputs *)

(** C6. In every state of a session, the data-rate label and the diagram
    label show what the current instance computes from the texts now in
    its entries, and the instance is of the class the menu names; no event
    raises; an edit puts the typed text in the entry's variable and a menu
    choice installs the chosen class, so the labels follow the last event;
    and two states with the same class and the same entry texts show the
    same outputs. *)
Theorem displayed_outputs_never_stale :
  (forall self, reachable self ->
     exists obj text,
       current_mod_obj self = Some obj /\
       mod_types self !! value (selected_mod_type self) = Some (cls obj) /\
       calculate_data_rate obj = Ok text /\
       value <$> data_rate_var obj = Some text /\
       value <$> diagram_var obj = Some (get_diagram obj)) /\
  (forall self ev r, reachable self -> handle self ev = Some r ->
     exists self' obj',
       r = Ok self' /\ current_mod_obj self' = Some obj' /\
       match ev with
       | EditRate text => value <$> rate_var obj' = Some text
       | EditFreqDev text => value <$> freq_dev_var obj' = Some text
       | SelectMod mod_name =>
           value (selected_mod_type self') = mod_name /\
           mod_types self !! mod_name = Some (cls obj')
       end) /\
  (forall a b oa ob, reachable a -> reachable b ->
     current_mod_obj a = Some oa -> current_mod_obj b = Some ob ->
     cls oa = cls ob ->
     value <$> rate_var oa = value <$> rate_var ob ->
     value <$> freq_dev_var oa = value <$> freq_dev_var ob ->
     value <$> data_rate_var oa = value <$> data_rate_var ob /\
     value <$> diagram_var oa = value <$> diagram_var ob).
Proof.
  assert (forall self obj, reachable self -> current_mod_obj self = Some obj ->
            mod_types self !! value (selected_mod_type self) = Some (cls obj) /\
            wired obj /\ fresh obj) as Hreach.
  { intros self obj Hr Hcur.
    destruct (reachable_consistent self Hr)
      as (_ & _ & obj0 & Hcur0 & Hw & Hf & Hname).
    assert (obj0 = obj) as -> by congruence. auto. }
  split; [|split].
  - intros self Hr.
    pose proof (reachable_consistent self Hr) as (_ & _ & obj & Hcur & _).
    destruct (Hreach self obj Hr Hcur) as (Hname & _ & text & Htext & Hout & Hdia).
    exists obj, text. auto.
  - intros self ev r Hr Hev.
    pose proof (reachable_consistent self Hr) as Hcons.
    destruct ev as [text|text|mod_name]; cbn [handle] in Hev.
    + destruct (current_mod_obj self) as [obj|] eqn:Hcur; [|discriminate].
      injection Hev as <-.
      destruct (Hreach self obj Hr Hcur) as (_ & Hw & _).
      destruct (write_rate_wired self text obj Hcur Hw)
        as (obj' & Hrun & _ & _ & _ & Hrate & _).
      exists (set_current_mod_obj self obj'), obj'. auto.
    + destruct (current_mod_obj self) as [obj|] eqn:Hcur; [|discriminate].
      cbn in Hev.
      destruct (freq_dev_var obj) as [var|] eqn:Hvar; [|discriminate].
      injection Hev as <-.
      destruct (Hreach self obj Hr Hcur) as (_ & Hw & _).
      destruct (write_freq_dev_wired self text obj var Hcur Hw Hvar)
        as (obj' & Hrun & _ & _ & _ & Hdev & _).
      exists (set_current_mod_obj self obj'), obj'. auto.
    + destruct (mod_types self !! mod_name) as [c|] eqn:Hc; [|discriminate].
      injection Hev as <-.
      destruct (select_mod_consistent self mod_name c Hcons Hc)
        as (self' & obj' & Hrun & _ & Hcur' & Hcls & Hsel & _).
      exists self', obj'. subst c. auto.
  - intros a b oa ob Ha Hb Hoa Hob Hcls Hrate Hdev.
    destruct (Hreach a oa Ha Hoa) as (_ & _ & ta & Hta & Houta & Hdiaa).
    destruct (Hreach b ob Hb Hob) as (_ & _ & tb & Htb & Houtb & Hdiab).
    rewrite Houta, Houtb, Hdiaa, Hdiab.
    rewrite (calculate_data_rate_inputs oa ob Hcls Hrate Hdev) in Hta.
    rewrite (get_diagram_class oa ob Hcls).
    split; congruence.
Qed.

Lemma displayed_outputs_never_stale_witness :
  exists obj text,
    current_mod_obj session_state = Some obj /\
    mod_types session_state !! value (selected_mod_type session_state) =
      Some (cls obj) /\
    calculate_data_rate obj = Ok text /\
    value <$> data_rate_var obj = Some text /\
    value <$> diagram_var obj = Some (get_diagram obj).
Proof.
  apply (proj1 displayed_outputs_never_stale session_state).
  apply (run_reachable session_events initial_state).
  - apply reachable_init. vm_compute. reflexivity.
  - vm_compute. reflexivity.
Defined.

(** ** Start-up and the choice of a class *)


(** C9. Asked for a name that is none of "BPSK", "QPSK" and "FSK",
    [change_mod_type] raises nothing and leaves the very state it leaves
    for "BPSK": a [ModulationBase] instance with the BPSK diagram, whose
    data-rate label shows the typed rate itself. *)
Theorem change_mod_type_unknown_name self mod_name :
  reachable self ->
  mod_name <> "BPSK" -> mod_name <> "QPSK" -> mod_name <> "FSK" ->
  exists self' obj,
    App_change_mod_type self mod_name = Ok self' /\
    App_change_mod_type self "BPSK" = Ok self' /\
    current_mod_obj self' = Some obj /\
    cls obj = C_ModulationBase /\
    value <$> diagram_var obj = Some "*                *" /\
    (forall text x, float_of_string text = Some x ->
       exists obj',
         write_rate self' text = Ok (set_current_mod_obj self' obj') /\
         cls obj' = C_ModulationBase /\
         value <$> rate_var obj' = Some text /\
         value <$> data_rate_var obj' = Some (format_2f x +:+ " bits/s")).
Proof.
  intros Hr Hb Hq Hf.
  destruct (reachable_consistent self Hr) as (Htypes & _).
  assert (mod_types self !! mod_name = None) as Hnone.
  { rewrite Htypes. unfold App_mod_types.
    rewrite !lookup_insert_ne by congruence. apply lookup_empty. }
  assert (mod_types self !! "BPSK" = Some C_ModulationBase) as Hbpsk.
  { rewrite Htypes. reflexivity. }
  assert (App_change_mod_type self mod_name = App_change_mod_type self "BPSK")
    as Hsame.
  { unfold App_change_mod_type. rewrite Hnone, Hbpsk. reflexivity. }
  destruct (change_mod_type_installs self mod_name)
    as (obj & Hrun & Hcls & Hw & (t0 & _ & _ & Hdia) & _).
  rewrite Hnone in Hcls. cbn [default] in Hcls.
  exists (set_current_mod_obj self obj), obj.
  split; [exact Hrun|]. split; [rewrite <- Hsame; exact Hrun|].
  split; [reflexivity|]. split; [exact Hcls|].
  split.
  { rewrite Hdia. unfold get_diagram. rewrite Hcls. reflexivity. }
  intros text x Hx.
  destruct (write_rate_wired (set_current_mod_obj self obj) text obj
              eq_refl Hw)
    as (obj' & Hrun' & _ & (t' & Ht' & Hout' & _) & Hcls' & Hrate' & _).
  exists obj'. split; [exact Hrun'|]. rewrite Hcls' , Hcls.
  split; [reflexivity|]. split; [exact Hrate'|].
  rewrite Hout'. f_equal.
  destruct (rate_var obj') as [var|] eqn:Hvar; [|discriminate].
  injection Hrate' as Hval.
  assert (calculate_data_rate obj' = Ok (format_2f x +:+ " bits/s")) as Hid.
  { unfold calculate_data_rate. rewrite Hcls', Hcls.
    apply (ModulationBase_rate_parses obj' var x Hvar). rewrite Hval.
    exact Hx. }
  congruence.
Qed.

Lemma change_mod_type_unknown_name_witness :
  exists self' obj,
    App_change_mod_type session_state "8PSK" = Ok self' /\
    App_change_mod_type session_state "BPSK" = Ok self' /\
    current_mod_obj self' = Some obj /\
    cls obj = C_ModulationBase /\
    value <$> diagram_var obj = Some "*                *" /\
    (forall text x, float_of_string text = Some x ->
       exists obj',
         write_rate self' text = Ok (set_current_mod_obj self' obj') /\
         cls obj' = C_ModulationBase /\
         value <$> rate_var obj' = Some text /\
         value <$> data_rate_var obj' = Some (format_2f x +:+ " bits/s")).
Proof.
  apply (change_mod_type_unknown_name session_state "8PSK").
  - apply (run_reachable session_events initial_state).
    + apply reachable_init. vm_compute. reflexivity.
    + vm_compute. reflexivity.
  - discriminate.
  - discriminate.
  - discriminate.
Defined.

(** ** What reads as a number *)





(** * Further properties of the program *)

(** ** [calculate_data_rate] and [update] on any instance *)

Section Update.

(** The outputs do not enter the computation. *)
Lemma calculate_data_rate_set_outputs obj out dia :
  calculate_data_rate (set_diagram_var (set_data_rate_var obj out) dia) =
  calculate_data_rate obj.
Proof. destruct obj. reflexivity. Qed.

Lemma get_diagram_set_outputs obj out dia :
  get_diagram (set_diagram_var (set_data_rate_var obj out) dia) =
  get_diagram obj.
Proof. destruct obj. reflexivity. Qed.

(** [update], written out. *)
Lemma update_explicit obj out dia text :
  data_rate_var obj = Some out -> diagram_var obj = Some dia ->
  calculate_data_rate obj = Ok text ->
  ModulationBase_update obj =
  Ok (set_diagram_var
        (set_data_rate_var obj (mkStringVar text (traces out)))
        (mkStringVar (get_diagram obj) (traces dia)),
      traces out ++ traces dia).
Proof.
  intros Hout Hdia Htext. unfold ModulationBase_update.
  rewrite Hout. cbn [getattr mbind result_bind]. rewrite Htext.
  cbn [mbind result_bind StringVar_set]. destruct obj.
  cbn [set_data_rate_var diagram_var] in *. rewrite Hdia. reflexivity.
Qed.

Lemma update_inv obj obj' fired :
  ModulationBase_update obj = Ok (obj', fired) ->
  exists out dia text,
    data_rate_var obj = Some out /\ diagram_var obj = Some dia /\
    calculate_data_rate obj = Ok text /\
    obj' = set_diagram_var
             (set_data_rate_var obj (mkStringVar text (traces out)))
             (mkStringVar (get_diagram obj) (traces dia)) /\
    fired = traces out ++ traces dia.
Proof.
  intros Hupd.
  destruct (data_rate_var obj) as [out|] eqn:Hout;
    [|unfold ModulationBase_update in Hupd; rewrite Hout in Hupd;
      discriminate].
  destruct (calculate_data_rate obj) as [text|e] eqn:Htext;
    [|unfold ModulationBase_update in Hupd; rewrite Hout, Htext in Hupd;
      discriminate].
  destruct (diagram_var obj) as [dia|] eqn:Hdia.
  - rewrite (update_explicit obj out dia text Hout Hdia Htext) in Hupd.
    injection Hupd as <- <-. eauto 10.
  - unfold ModulationBase_update in Hupd. rewrite Hout, Htext in Hupd.
    cbn [getattr mbind result_bind StringVar_set] in Hupd.
    destruct obj. cbn [set_data_rate_var diagram_var] in *.
    rewrite Hdia in Hupd. discriminate.
Qed.

End Update.

(** X1. Whatever the instance, a [calculate_data_rate] that fails fails with
    [AttributeError], and only because the instance lacks the rate variable
    or, for an FSK instance, the deviation variable: a [ValueError] never
    leaves the method. *)
Theorem calculate_data_rate_raises_only_AttributeError self e :
  calculate_data_rate self = Raise e ->
  e = AttributeError /\
  (rate_var self = None \/
   (cls self = C_FSKModulation /\ freq_dev_var self = None)).
Proof.
  unfold calculate_data_rate, ModulationBase_calculate_data_rate,
    QPSKModulation_calculate_data_rate, FSKModulation_calculate_data_rate.
  destruct (rate_var self) as [var|]; cbn [getattr mbind result_bind].
  - destruct (float__cases (StringVar_get var)) as [(x & _ & ->)|(_ & ->)].
    + destruct (cls self) eqn:Hcls; try discriminate.
      destruct (freq_dev_var self) as [dvar|];
        cbn [getattr mbind result_bind].
      * destruct (float__cases (StringVar_get dvar))
          as [(y & _ & ->)|(_ & ->)]; discriminate.
      * intros [= <-]. auto.
    + destruct (cls self); discriminate.
  - destruct (cls self); intros [= <-]; auto.
Qed.

Lemma calculate_data_rate_raises_only_AttributeError_witness :
  AttributeError = AttributeError /\
  (rate_var (mkModObj C_FSKModulation 0 (Some (StringVar_new "1"))
               None None None) = None \/
   (cls (mkModObj C_FSKModulation 0 (Some (StringVar_new "1"))
           None None None) = C_FSKModulation /\
    freq_dev_var (mkModObj C_FSKModulation 0 (Some (StringVar_new "1"))
                    None None None) = None)).
Proof.
  exact (calculate_data_rate_raises_only_AttributeError
           (mkModObj C_FSKModulation 0 (Some (StringVar_new "1"))
              None None None)
           AttributeError eq_refl).
Defined.

(** X2. An [update] that returns leaves the class, the row counter, the two
    entries and the traces of the outputs as they were, and leaves in the
    outputs what the instance computes from its entries; it fires the
    traces of the two outputs, in that order. *)
Theorem update_postcondition obj obj' fired :
  ModulationBase_update obj = Ok (obj', fired) ->
  cls obj' = cls obj /\ current_row obj' = current_row obj /\
  rate_var obj' = rate_var obj /\ freq_dev_var obj' = freq_dev_var obj /\
  (exists text,
     calculate_data_rate obj' = Ok text /\
     value <$> data_rate_var obj' = Some text /\
     value <$> diagram_var obj' = Some (get_diagram obj')) /\
  traces <$> data_rate_var obj' = traces <$> data_rate_var obj /\
  traces <$> diagram_var obj' = traces <$> diagram_var obj /\
  (exists out dia,
     data_rate_var obj = Some out /\ diagram_var obj = Some dia /\
     fired = traces out ++ traces dia).
Proof.
  intros Hupd.
  destruct (update_inv obj obj' fired Hupd)
    as (out & dia & text & Hout & Hdia & Htext & -> & ->).
  rewrite calculate_data_rate_set_outputs, get_diagram_set_outputs.
  destruct obj. cbn in *. subst. repeat split; eauto.
Qed.

Lemma update_postcondition_witness :
  exists obj',
    ModulationBase_update (instance_with C_QPSKModulation "21" "0") =
      Ok (obj', []) /\
    rate_var obj' = Some (StringVar_new "21") /\
    value <$> data_rate_var obj' = Some "42.00 bits/s".
Proof.
  eexists. split; [reflexivity|].
  pose proof (update_postcondition
                (instance_with C_QPSKModulation "21" "0") _ [] eq_refl)
    as (_ & _ & Hrate & _).
  split; [exact Hrate | reflexivity].
Defined.

(** X3. [update] is idempotent: run on the instance it has just returned,
    it returns that instance again and fires the same traces. *)
Theorem update_idempotent obj obj' fired :
  ModulationBase_update obj = Ok (obj', fired) ->
  ModulationBase_update obj' = Ok (obj', fired).
Proof.
  intros Hupd.
  destruct (update_inv obj obj' fired Hupd)
    as (out & dia & text & Hout & Hdia & Htext & -> & ->).
  rewrite (update_explicit _ (mkStringVar text (traces out))
             (mkStringVar (get_diagram obj) (traces dia)) text).
  - destruct obj. reflexivity.
  - destruct obj. reflexivity.
  - destruct obj. reflexivity.
  - rewrite calculate_data_rate_set_outputs. exact Htext.
Qed.

Lemma update_idempotent_witness :
  exists obj',
    ModulationBase_update (instance_with C_FSKModulation "1" "x") =
      Ok (obj', []) /\
    ModulationBase_update obj' = Ok (obj', []).
Proof.
  eexists. split; [reflexivity|].
  exact (update_idempotent (instance_with C_FSKModulation "1" "x") _ []
           eq_refl).
Defined.

(** ** Choosing a class *)

Section Choice.

(** [change_mod_type], evaluated. *)
Lemma change_mod_type_explicit self mod_name :
  App_change_mod_type self mod_name =
  Ok (mkApp (mod_types self) (selected_mod_type self)
        (Some (activated
                 (default C_ModulationBase (mod_types self !! mod_name))))).
Proof.
  unfold App_change_mod_type.
  destruct (default C_ModulationBase (mod_types self !! mod_name));
    vm_compute; reflexivity.
Qed.

Lemma consistent_fields self :
  consistent self ->
  exists name obj,
    self = mkApp App_mod_types (mkStringVar name []) (Some obj) /\
    wired obj /\ fresh obj /\ App_mod_types !! name = Some (cls obj).
Proof.
  intros (Htypes & Hsel & obj & Hcur & Hw & Hf & Hname).
  destruct self as [types [name tr] cur]. cbn in *. subst.
  exists name, obj. auto.
Qed.

Lemma select_mod_explicit name obj mod_name :
  select_mod (mkApp App_mod_types (mkStringVar name []) (Some obj)) mod_name =
  Ok (mkApp App_mod_types (mkStringVar mod_name [])
        (Some (activated
                 (default C_ModulationBase (App_mod_types !! mod_name))))).
Proof.
  unfold select_mod, recursion_limit.
  cbn [StringVar_set selected_mod_type traces run_callbacks mbind
       result_bind set_selected_mod_type mod_types current_mod_obj].
  rewrite change_mod_type_explicit. reflexivity.
Qed.

(** The keys of the dictionary. *)
Lemma App_mod_types_lookup name c :
  App_mod_types !! name = Some c ->
  (name = "BPSK" /\ c = C_ModulationBase) \/
  (name = "QPSK" /\ c = C_QPSKModulation) \/
  (name = "FSK" /\ c = C_FSKModulation).
Proof.
  unfold App_mod_types. intros H.
  destruct (decide (name = "BPSK")) as [->|Hb];
    [rewrite lookup_insert_eq in H; injection H as <-; auto|].
  rewrite lookup_insert_ne in H by congruence.
  destruct (decide (name = "QPSK")) as [->|Hq];
    [rewrite lookup_insert_eq in H; injection H as <-; auto|].
  rewrite lookup_insert_ne in H by congruence.
  destruct (decide (name = "FSK")) as [->|Hf];
    [rewrite lookup_insert_eq in H; injection H as <-; auto|].
  rewrite lookup_insert_ne in H by congruence.
  rewrite lookup_empty in H. discriminate.
Qed.

End Choice.

(** X4. [change_mod_type] never raises, whatever the state and the name: it
    keeps the dictionary and the menu variable and installs the instance
    [activated] describes, of the class the name stands for or of
    [ModulationBase]. The instance that was current before plays no part:
    any other in its place leads to the same state. *)
Theorem change_mod_type_total self mod_name :
  App_change_mod_type self mod_name =
    Ok (mkApp (mod_types self) (selected_mod_type self)
          (Some (activated
                   (default C_ModulationBase (mod_types self !! mod_name))))) /\
  (forall previous,
     App_change_mod_type (set_current_mod_obj self previous) mod_name =
     App_change_mod_type self mod_name).
Proof.
  split; [apply change_mod_type_explicit|].
  intros previous. rewrite !change_mod_type_explicit. reflexivity.
Qed.

(** X5. A menu choice forgets the session: from any two states of a session
    the same choice leads to the same state, with the chosen name in the
    menu variable and the freshly installed instance of its class, "0" in
    each entry and "0.00 bits/s" in the data-rate label. *)
Theorem menu_choice_forgets a b mod_name :
  reachable a -> reachable b ->
  handle a (SelectMod mod_name) = handle b (SelectMod mod_name) /\
  (forall c, App_mod_types !! mod_name = Some c ->
     handle a (SelectMod mod_name) =
     Some (Ok (mkApp App_mod_types (mkStringVar mod_name [])
                 (Some (activated c)))) /\
     value <$> rate_var (activated c) = Some "0" /\
     value <$> data_rate_var (activated c) = Some "0.00 bits/s" /\
     calculate_data_rate (activated c) = Ok "0.00 bits/s").
Proof.
  intros Ha Hb.
  destruct (consistent_fields a (reachable_consistent a Ha))
    as (na & oa & -> & _).
  destruct (consistent_fields b (reachable_consistent b Hb))
    as (nb & ob & -> & _).
  cbn [handle mod_types]. rewrite !select_mod_explicit.
  split; [reflexivity|].
  intros c Hc. rewrite Hc. cbn [default].
  split; [reflexivity|].
  destruct c; repeat split; vm_compute; reflexivity.
Qed.

Lemma menu_choice_forgets_witness :
  handle initial_state (SelectMod "QPSK") =
  handle session_state (SelectMod "QPSK").
Proof.
  refine (proj1 (menu_choice_forgets initial_state session_state "QPSK" _ _)).
  - apply reachable_init. vm_compute. reflexivity.
  - apply (run_reachable session_events initial_state).
    + apply reachable_init. vm_compute. reflexivity.
    + vm_compute. reflexivity.
Defined.

(** ** Edits *)

Section Edits.

(** A wired instance, field by field. *)
Lemma wired_fields obj :
  wired obj ->
  exists c row rate out dia dev,
    obj = mkModObj c row (Some (mkStringVar rate [UpdateCurrent]))
            (Some (mkStringVar out [])) (Some (mkStringVar dia [])) dev /\
    match dev with
    | Some var => traces var = [UpdateCurrent]
    | None => c <> C_FSKModulation
    end.
Proof.
  intros ((rv & Hrv & Hrt) & (dv & Hdv & Hdt) & (gv & Hgv & Hgt) & Hdev).
  destruct obj as [c row orv odv ogv dev]. cbn in *. subst.
  destruct rv as [rate tr], dv as [out tr'], gv as [dia tr'']. cbn in *.
  subst. eauto 10.
Qed.

Lemma wired_of_fields c row rate out dia dev :
  match dev with
  | Some var => traces var = [UpdateCurrent]
  | None => c <> C_FSKModulation
  end ->
  wired (mkModObj c row (Some (mkStringVar rate [UpdateCurrent]))
           (Some (mkStringVar out [])) (Some (mkStringVar dia [])) dev).
Proof. intros Hdev. unfold wired. cbn. eauto 10. Qed.

(** One step of the callbacks of an entry, written out. *)
Lemma run_update_explicit depth self c row rate out dia dev text :
  calculate_data_rate
    (mkModObj c row (Some (mkStringVar rate [UpdateCurrent]))
       (Some (mkStringVar out [])) (Some (mkStringVar dia [])) dev) =
    Ok text ->
  run_callbacks (S depth) [UpdateCurrent]
    (set_current_mod_obj self
       (mkModObj c row (Some (mkStringVar rate [UpdateCurrent]))
          (Some (mkStringVar out [])) (Some (mkStringVar dia [])) dev)) =
  Ok (set_current_mod_obj self
        (mkModObj c row (Some (mkStringVar rate [UpdateCurrent]))
           (Some (mkStringVar text []))
           (Some (mkStringVar
                    (get_diagram (mkModObj c 0 None None None None)) []))
           dev)).
Proof.
  intros Htext.
  cbn [run_callbacks set_current_mod_obj current_mod_obj getattr mbind
       result_bind].
  match goal with
  | |- context [ModulationBase_update ?o] =>
      rewrite (update_explicit o (mkStringVar out []) (mkStringVar dia [])
                 text eq_refl eq_refl Htext)
  end.
  cbn [mbind result_bind app traces]. destruct depth; reflexivity.
Qed.

Lemma write_rate_explicit self c row rate out dia dev text text' :
  current_mod_obj self =
    Some (mkModObj c row (Some (mkStringVar rate [UpdateCurrent]))
            (Some (mkStringVar out [])) (Some (mkStringVar dia [])) dev) ->
  calculate_data_rate
    (mkModObj c row (Some (mkStringVar text [UpdateCurrent]))
       (Some (mkStringVar out [])) (Some (mkStringVar dia [])) dev) =
    Ok text' ->
  write_rate self text =
  Ok (set_current_mod_obj self
        (mkModObj c row (Some (mkStringVar text [UpdateCurrent]))
           (Some (mkStringVar text' []))
           (Some (mkStringVar
                    (get_diagram (mkModObj c 0 None None None None)) []))
           dev)).
Proof.
  intros Hcur Htext. unfold write_rate. rewrite Hcur.
  cbn [getattr mbind result_bind rate_var StringVar_set traces set_rate_var
       cls current_row data_rate_var diagram_var freq_dev_var].
  unfold recursion_limit, set_rate_var.
  cbn [cls current_row data_rate_var diagram_var freq_dev_var].
  rewrite (run_update_explicit 999 self c row text out dia dev text' Htext).
  reflexivity.
Qed.

Lemma write_freq_dev_explicit self c row rate out dia dev text text' :
  current_mod_obj self =
    Some (mkModObj c row (Some (mkStringVar rate [UpdateCurrent]))
            (Some (mkStringVar out [])) (Some (mkStringVar dia []))
            (Some (mkStringVar dev [UpdateCurrent]))) ->
  calculate_data_rate
    (mkModObj c row (Some (mkStringVar rate [UpdateCurrent]))
       (Some (mkStringVar out [])) (Some (mkStringVar dia []))
       (Some (mkStringVar text [UpdateCurrent]))) =
    Ok text' ->
  write_freq_dev self text =
  Ok (set_current_mod_obj self
        (mkModObj c row (Some (mkStringVar rate [UpdateCurrent]))
           (Some (mkStringVar text' []))
           (Some (mkStringVar
                    (get_diagram (mkModObj c 0 None None None None)) []))
           (Some (mkStringVar text [UpdateCurrent])))).
Proof.
  intros Hcur Htext. unfold write_freq_dev. rewrite Hcur.
  cbn [getattr mbind result_bind rate_var StringVar_set traces
       set_freq_dev_var cls current_row data_rate_var diagram_var
       freq_dev_var].
  unfold recursion_limit, set_freq_dev_var.
  cbn [cls current_row rate_var data_rate_var diagram_var].
  rewrite (run_update_explicit 999 self c row rate out dia _ text' Htext).
  reflexivity.
Qed.

(** The current instance of a state of a session, field by field. *)
Lemma reachable_fields self :
  reachable self ->
  exists name c row rate out dia dev,
    self = mkApp App_mod_types (mkStringVar name [])
             (Some (mkModObj c row (Some (mkStringVar rate [UpdateCurrent]))
                      (Some (mkStringVar out [])) (Some (mkStringVar dia []))
                      dev)) /\
    App_mod_types !! name = Some c /\
    match dev with
    | Some var => traces var = [UpdateCurrent]
    | None => c <> C_FSKModulation
    end.
Proof.
  intros Hr.
  destruct (consistent_fields self (reachable_consistent self Hr))
    as (name & obj & -> & Hw & _ & Hname).
  destruct (wired_fields obj Hw)
    as (c & row & rate & out & dia & dev & -> & Hdev).
  eauto 12.
Qed.

(** What an instance with its entries computes, whatever its outputs. *)
Lemma calculate_total_fields c row rate out dia dev :
  match dev with
  | Some var => traces var = [UpdateCurrent]
  | None => c <> C_FSKModulation
  end ->
  exists text,
    calculate_data_rate
      (mkModObj c row (Some (mkStringVar rate [UpdateCurrent]))
         (Some (mkStringVar out [])) (Some (mkStringVar dia [])) dev) =
    Ok text.
Proof.
  intros Hdev. apply wired_total, wired_of_fields, Hdev.
Qed.

End Edits.

(** X6. The last edit of the rate wins: typing one text and then another in
    the rate entry leaves the very state that typing the second alone
    leaves. *)
Theorem last_rate_edit_wins self text1 text2 self1 :
  reachable self -> write_rate self text1 = Ok self1 ->
  write_rate self1 text2 = write_rate self text2.
Proof.
  intros Hr H1.
  destruct (reachable_fields self Hr)
    as (name & c & row & rate & out & dia & dev & Hself & _ & Hdev).
  assert (current_mod_obj self =
          Some (mkModObj c row (Some (mkStringVar rate [UpdateCurrent]))
                  (Some (mkStringVar out [])) (Some (mkStringVar dia []))
                  dev)) as Hcur by (rewrite Hself; reflexivity).
  clear Hself Hr.
  destruct (calculate_total_fields c row text1 out dia dev Hdev) as (t1 & Ht1).
  rewrite (write_rate_explicit self c row rate out dia dev text1 t1 Hcur Ht1)
    in H1.
  injection H1 as <-.
  destruct (calculate_total_fields c row text2 out dia dev Hdev) as (t2 & Ht2).
  rewrite (write_rate_explicit self c row rate out dia dev text2 t2 Hcur Ht2).
  match goal with
  | |- write_rate ?app _ = _ =>
      rewrite (write_rate_explicit app c row text1 t1
                 (get_diagram (mkModObj c 0 None None None None)) dev text2 t2
                 eq_refl)
  end.
  - reflexivity.
  - rewrite <- Ht2. apply calculate_data_rate_inputs; reflexivity.
Qed.

Lemma last_rate_edit_wins_witness :
  exists self1,
    write_rate session_state "7" = Ok self1 /\
    write_rate self1 "8" = write_rate session_state "8".
Proof.
  eexists. split; [vm_compute; reflexivity|].
  apply (last_rate_edit_wins session_state "7" "8").
  - apply (run_reachable session_events initial_state).
    + apply reachable_init. vm_compute. reflexivity.
    + vm_compute. reflexivity.
  - vm_compute. reflexivity.
Defined.

(** X7. The two entries of an FSK instance are edited independently: typing
    the rate and then the deviation leaves the very state that typing the
    deviation and then the rate leaves. *)
Theorem rate_and_deviation_edits_commute self rate dev a b :
  reachable self ->
  write_rate self rate = Ok a -> write_freq_dev a dev = Ok b ->
  exists a', write_freq_dev self dev = Ok a' /\ write_rate a' rate = Ok b.
Proof.
  intros Hr Ha Hb.
  destruct (reachable_fields self Hr)
    as (name & c & row & rate0 & out & dia & odev & Hself & _ & Hdev).
  assert (current_mod_obj self =
          Some (mkModObj c row (Some (mkStringVar rate0 [UpdateCurrent]))
                  (Some (mkStringVar out [])) (Some (mkStringVar dia []))
                  odev)) as Hcur by (rewrite Hself; reflexivity).
  clear Hself Hr.
  destruct (calculate_total_fields c row rate out dia odev Hdev) as (t1 & Ht1).
  rewrite (write_rate_explicit self c row rate0 out dia odev rate t1 Hcur Ht1)
    in Ha.
  injection Ha as <-.
  destruct odev as [[dev0 tr]|]; cbn in Hdev.
  - subst tr.
    destruct (calculate_total_fields c row rate out dia
                (Some (mkStringVar dev [UpdateCurrent])) eq_refl)
      as (t2 & Ht2).
    match type of Hb with
    | write_freq_dev ?app _ = _ =>
        rewrite (write_freq_dev_explicit app c row rate t1
                   (get_diagram (mkModObj c 0 None None None None)) dev0 dev
                   t2 eq_refl) in Hb;
        [|rewrite <- Ht2; apply calculate_data_rate_inputs; reflexivity]
    end.
    injection Hb as <-.
    destruct (calculate_total_fields c row rate0 out dia
                (Some (mkStringVar dev [UpdateCurrent])) eq_refl)
      as (t3 & Ht3).
    eexists. split.
    + exact (write_freq_dev_explicit self c row rate0 out dia dev0 dev t3
               Hcur Ht3).
    + match goal with
      | |- write_rate ?app _ = _ =>
          rewrite (write_rate_explicit app c row rate0 t3
                     (get_diagram (mkModObj c 0 None None None None))
                     (Some (mkStringVar dev [UpdateCurrent])) rate t2 eq_refl)
      end.
      * reflexivity.
      * rewrite <- Ht2. apply calculate_data_rate_inputs; reflexivity.
  - unfold write_freq_dev in Hb.
    cbn [set_current_mod_obj current_mod_obj freq_dev_var getattr mbind
         result_bind] in Hb.
    discriminate Hb.
Qed.

Lemma rate_and_deviation_edits_commute_witness :
  exists a b a',
    write_rate session_state "3" = Ok a /\ write_freq_dev a "250" = Ok b /\
    write_freq_dev session_state "250" = Ok a' /\ write_rate a' "3" = Ok b.
Proof.
  assert (reachable session_state) as Hr.
  { apply (run_reachable session_events initial_state).
    - apply reachable_init. vm_compute. reflexivity.
    - vm_compute. reflexivity. }
  assert (exists a, write_rate session_state "3" = Ok a) as (a & Ha)
    by (eexists; vm_compute; reflexivity).
  assert (exists b, write_freq_dev a "250" = Ok b) as (b & Hb).
  { vm_compute in Ha. injection Ha as <-. eexists. vm_compute. reflexivity. }
  destruct (rate_and_deviation_edits_commute session_state "3" "250" a b Hr
              Ha Hb) as (a' & H1 & H2).
  exists a, b, a'. auto.
Defined.

(** ** The states of a session *)

Section States.

Lemma activated_entries c :
  is_Some (freq_dev_var (activated c)) <-> cls (activated c) = C_FSKModulation.
Proof.
  destruct c; cbn; split; intros H; try discriminate H; eauto;
    destruct H as [? H]; discriminate H.
Qed.

Lemma App_init_explicit : App_init = Ok initial_state.
Proof. vm_compute. reflexivity. Qed.

(** One event from a state of a session, written out. *)
Lemma handle_fields name c row rate out dia dev ev self' :
  match dev with
  | Some var => traces var = [UpdateCurrent]
  | None => c <> C_FSKModulation
  end ->
  handle (mkApp App_mod_types (mkStringVar name [])
            (Some (mkModObj c row (Some (mkStringVar rate [UpdateCurrent]))
                     (Some (mkStringVar out [])) (Some (mkStringVar dia []))
                     dev))) ev = Some (Ok self') ->
  (exists rate' out' dia' dev',
     self' = mkApp App_mod_types (mkStringVar name [])
               (Some (mkModObj c row
                        (Some (mkStringVar rate' [UpdateCurrent]))
                        (Some (mkStringVar out' []))
                        (Some (mkStringVar dia' [])) dev')) /\
     (is_Some dev' <-> is_Some dev)) \/
  (exists mod_name c',
     ev = SelectMod mod_name /\ App_mod_types !! mod_name = Some c' /\
     self' = mkApp App_mod_types (mkStringVar mod_name [])
               (Some (activated c'))).
Proof.
  intros Hdev Hev. destruct ev as [text|text|mod_name]; cbn [handle] in Hev.
  - left. cbn [current_mod_obj] in Hev. injection Hev as Hev.
    destruct (calculate_total_fields c row text out dia dev Hdev) as (t & Ht).
    match type of Hev with
    | write_rate ?app _ = _ =>
        rewrite (write_rate_explicit app c row rate out dia dev text t
                   eq_refl Ht) in Hev
    end.
    injection Hev as <-. eexists _, _, _, _. split; reflexivity.
  - left. cbn [current_mod_obj mbind option_bind freq_dev_var] in Hev.
    destruct dev as [[dev0 tr]|]; [|discriminate Hev]. cbn in Hdev. subst tr.
    injection Hev as Hev.
    destruct (calculate_total_fields c row rate out dia
                (Some (mkStringVar text [UpdateCurrent])) eq_refl)
      as (t & Ht).
    match type of Hev with
    | write_freq_dev ?app _ = _ =>
        rewrite (write_freq_dev_explicit app c row rate out dia dev0 text t
                   eq_refl Ht) in Hev
    end.
    injection Hev as <-. eexists _, _, _, _. split; [reflexivity|].
    split; eauto.
  - right. cbn [mod_types] in Hev.
    destruct (App_mod_types !! mod_name) as [c'|] eqn:Hc; [|discriminate Hev].
    injection Hev as Hev. rewrite select_mod_explicit, Hc in Hev.
    injection Hev as <-. eauto.
Qed.

Lemma reachable_entries self :
  reachable self ->
  forall obj, current_mod_obj self = Some obj ->
    (is_Some (freq_dev_var obj) <-> cls obj = C_FSKModulation).
Proof.
  induction 1 as [self Hinit | self ev self' Hr IH Hev]; intros obj Hcur.
  - rewrite App_init_explicit in Hinit. injection Hinit as <-.
    injection Hcur as <-. exact (activated_entries C_ModulationBase).
  - destruct (reachable_fields self Hr)
      as (name & c & row & rate & out & dia & dev & -> & _ & Hdev).
    specialize (IH _ eq_refl). cbn [freq_dev_var cls] in IH.
    destruct (handle_fields _ _ _ _ _ _ _ _ _ Hdev Hev)
      as [(rate' & out' & dia' & dev' & -> & Hsome)
         |(mod_name & c' & _ & _ & ->)];
      injection Hcur as <-.
    + cbn [freq_dev_var cls]. rewrite Hsome. exact IH.
    + apply activated_entries.
Qed.

End States.

(** X8. In every state of a session the dictionary is the one [__init__]
    wrote, and the current instance has a deviation variable exactly when
    it is an FSK instance, which is exactly when the menu shows "FSK": the
    deviation entry can be typed in then and only then. *)
Theorem deviation_entry_iff_FSK self obj :
  reachable self -> current_mod_obj self = Some obj ->
  mod_types self = App_mod_types /\
  (is_Some (freq_dev_var obj) <-> cls obj = C_FSKModulation) /\
  (cls obj = C_FSKModulation <-> value (selected_mod_type self) = "FSK") /\
  (forall text,
     handle self (EditFreqDev text) = None <->
     value (selected_mod_type self) <> "FSK").
Proof.
  intros Hr Hcur.
  pose proof (reachable_entries self Hr obj Hcur) as Hentry.
  destruct (reachable_consistent self Hr)
    as (Htypes & _ & obj0 & Hcur0 & _ & _ & Hname).
  assert (obj0 = obj) as -> by congruence.
  assert (cls obj = C_FSKModulation <->
          value (selected_mod_type self) = "FSK") as Hmenu.
  { rewrite Htypes in Hname. split.
    - intros Hcls. rewrite Hcls in Hname.
      destruct (App_mod_types_lookup _ _ Hname)
        as [(_ & ?)|[(_ & ?)|(? & _)]]; [discriminate..|assumption].
    - intros Hsel. rewrite Hsel in Hname.
      assert (App_mod_types !! "FSK" = Some C_FSKModulation) as Hfsk
        by reflexivity.
      congruence. }
  split; [exact Htypes|]. split; [exact Hentry|]. split; [exact Hmenu|].
  intros text. cbn [handle]. rewrite Hcur. cbn [mbind option_bind].
  rewrite <- Hmenu, <- Hentry.
  destruct (freq_dev_var obj); split; intros H; try discriminate H; eauto.
  exfalso. apply H. eauto.
Qed.

Lemma deviation_entry_iff_FSK_witness :
  handle initial_state (EditFreqDev "5") = None <->
  value (selected_mod_type initial_state) <> "FSK".
Proof.
  refine (proj2 (proj2 (proj2
            (deviation_entry_iff_FSK initial_state _ _ eq_refl))) "5").
  apply reachable_init. vm_compute. reflexivity.
Defined.

(** X9. Callbacks do not pile up. In every state of a session each entry
    variable carries the update callback once, and the output variables and
    the menu variable carry none; so typing in the rate entry is the write
    followed by one [update], which fires nothing further. *)
Theorem one_update_per_edit self text :
  reachable self ->
  exists obj var obj',
    current_mod_obj self = Some obj /\
    rate_var obj = Some var /\ traces var = [UpdateCurrent] /\
    (forall dvar, freq_dev_var obj = Some dvar ->
                  traces dvar = [UpdateCurrent]) /\
    traces <$> data_rate_var obj = Some [] /\
    traces <$> diagram_var obj = Some [] /\
    traces (selected_mod_type self) = [] /\
    ModulationBase_update (set_rate_var obj (mkStringVar text (traces var))) =
      Ok (obj', []) /\
    write_rate self text = Ok (set_current_mod_obj self obj').
Proof.
  intros Hr.
  destruct (reachable_fields self Hr)
    as (name & c & row & rate & out & dia & dev & -> & _ & Hdev).
  destruct (calculate_total_fields c row text out dia dev Hdev) as (t & Ht).
  eexists _, _, _. split; [reflexivity|]. split; [reflexivity|].
  split; [reflexivity|]. split.
  { intros dvar Hd. cbn in Hd. subst dev. exact Hdev. }
  split; [reflexivity|]. split; [reflexivity|]. split; [reflexivity|].
  split.
  - cbn [traces set_rate_var cls current_row data_rate_var diagram_var
         freq_dev_var].
    exact (update_explicit
             (mkModObj c row (Some (mkStringVar text [UpdateCurrent]))
                (Some (mkStringVar out [])) (Some (mkStringVar dia [])) dev)
             (mkStringVar out []) (mkStringVar dia []) t
             eq_refl eq_refl Ht).
  - match goal with
    | |- write_rate ?app _ = _ =>
        rewrite (write_rate_explicit app c row rate out dia dev text t
                   eq_refl Ht)
    end.
    reflexivity.
Qed.

Lemma one_update_per_edit_witness :
  exists obj var obj',
    current_mod_obj session_state = Some obj /\
    rate_var obj = Some var /\ traces var = [UpdateCurrent] /\
    (forall dvar, freq_dev_var obj = Some dvar ->
                  traces dvar = [UpdateCurrent]) /\
    traces <$> data_rate_var obj = Some [] /\
    traces <$> diagram_var obj = Some [] /\
    traces (selected_mod_type session_state) = [] /\
    ModulationBase_update (set_rate_var obj (mkStringVar "9" (traces var))) =
      Ok (obj', []) /\
    write_rate session_state "9" = Ok (set_current_mod_obj session_state obj').
Proof.
  apply (one_update_per_edit session_state "9").
  apply (run_reachable session_events initial_state).
  - apply reachable_init. vm_compute. reflexivity.
  - vm_compute. reflexivity.
Defined.

(** X10. Whatever the user does, the program raises nothing: when every
    event of a run is one the window offers, [main] ends in a state of a
    session. *)
Theorem main_never_raises evs r :
  main evs = Some r -> exists self, r = Ok self /\ reachable self.
Proof.
  unfold main. rewrite App_init_explicit.
  assert (reachable initial_state) as Hr
    by (apply reachable_init, App_init_explicit).
  revert Hr. generalize initial_state as self.
  induction evs as [|ev evs IH]; intros self Hr Hrun; cbn [run] in Hrun.
  - injection Hrun as <-. eauto.
  - destruct (handle self ev) as [r0|] eqn:Hev; [|discriminate Hrun].
    destruct (handle_consistent self ev r0 (reachable_consistent self Hr) Hev)
      as (self1 & -> & _).
    exact (IH self1 (reachable_step self ev self1 Hr Hev) Hrun).
Qed.

Lemma main_never_raises_witness :
  exists self, Ok session_state = Ok self /\ reachable self.
Proof.
  apply (main_never_raises session_events (Ok session_state)).
  vm_compute. reflexivity.
Defined.

(** ** Edge inputs *)

Section EdgeInputs.



End EdgeInputs.



(** X12. An FSK deviation that does not read as a number shows exactly what
    the deviation "0" shows, whatever the rate. *)
Theorem unreadable_deviation_shows_as_zero r d :
  float_of_string d = None ->
  calculate_data_rate (instance_with C_FSKModulation r d) =
  calculate_data_rate (instance_with C_FSKModulation r "0").
Proof.
  intros Hd.
  unfold calculate_data_rate, instance_with, FSKModulation_calculate_data_rate.
  cbn [cls rate_var freq_dev_var getattr mbind result_bind StringVar_get
       StringVar_new value].
  destruct (decide (C_FSKModulation = C_FSKModulation)) as [_|Hne];
    [|contradiction].
  cbn [getattr mbind result_bind StringVar_get StringVar_new value].
  rewrite (float__Raise d Hd).
  change (float_ "0") with (@Ok float (S754_zero false)).
  change (of_int 0) with (S754_zero false).
  destruct (float_ r) as [x|[]]; reflexivity.
Qed.

Lemma unreadable_deviation_shows_as_zero_witness :
  calculate_data_rate (instance_with C_FSKModulation "12.5" "1,5") =
  calculate_data_rate (instance_with C_FSKModulation "12.5" "0").
Proof.
  exact (unreadable_deviation_shows_as_zero "12.5" "1,5" eq_refl).
Defined.

(** ** The printed data rate *)

Section Printed.

Lemma isdigit_digit_char d : 0 <= d <= 9 -> isdigit (digit_char d) = true.
Proof.
  intros H.
  assert (d = 0 \/ d = 1 \/ d = 2 \/ d = 3 \/ d = 4 \/ d = 5 \/ d = 6 \/
          d = 7 \/ d = 8 \/ d = 9) as Hd by lia.
  repeat (destruct Hd as [->|Hd]; [reflexivity|]). subst d. reflexivity.
Qed.

Lemma after_point_uint d rest :
  after_point true (NilEmpty.string_of_uint d +:+ String "." rest) = Some rest.
Proof.
  induction d; cbn [NilEmpty.string_of_uint]; rewrite ?append_cons, ?append_nil;
    cbn [after_point]; try exact IHd; reflexivity.
Qed.

(** A number starts with a digit, and its digits end at the point. *)
Lemma number_head d rest :
  exists c tail,
    NilZero.string_of_uint d +:+ String "." rest = String c tail /\
    isdigit c = true /\ after_point true tail = Some rest.
Proof.
  destruct d; unfold NilZero.string_of_uint; cbn [NilEmpty.string_of_uint];
    rewrite append_cons; eexists _, _;
    (split; [reflexivity|]); (split; [reflexivity|]);
    [rewrite append_nil; reflexivity | apply after_point_uint ..].
Qed.

(** A digit is not the sign. *)
Lemma two_decimals_digit_head c tail :
  isdigit c = true ->
  two_decimals (String c tail) =
  match after_point true tail with
  | Some (String a (String b EmptyString)) => isdigit a && isdigit b
  | _ => false
  end.
Proof.
  intros H. unfold two_decimals.
  destruct c as [[] [] [] [] [] [] [] []]; vm_compute in H;
    try discriminate H; reflexivity.
Qed.

Lemma two_decimals_fixed2 neg hundredths :
  two_decimals (fixed2 neg hundredths) = true.
Proof.
  unfold fixed2, string_of_Z.
  set (d := N.to_uint (Z.to_N (hundredths / 100))).
  assert (isdigit (digit_char (hundredths mod 100 / 10)) = true) as Ha.
  { apply isdigit_digit_char.
    pose proof (Z.mod_pos_bound hundredths 100 ltac:(lia)).
    assert (0 <= hundredths mod 100 / 10) by (apply Z.div_pos; lia).
    assert (hundredths mod 100 / 10 < 10)
      by (apply Z.div_lt_upper_bound; lia).
    lia. }
  assert (isdigit (digit_char (hundredths mod 10)) = true) as Hb.
  { apply isdigit_digit_char.
    pose proof (Z.mod_pos_bound hundredths 10 ltac:(lia)). lia. }
  rewrite (append_cons "." EmptyString), append_nil.
  destruct (number_head d
              (String (digit_char (hundredths mod 100 / 10))
                 (String (digit_char (hundredths mod 10)) EmptyString)))
    as (c & tail & Heq & Hc & Htail).
  destruct neg.
  - rewrite (append_cons "-" EmptyString), append_nil, Heq.
    unfold two_decimals. cbn [after_point]. rewrite Hc, Htail, Ha, Hb.
    reflexivity.
  - rewrite append_nil, Heq, (two_decimals_digit_head c tail Hc), Htail, Ha, Hb.
    reflexivity.
Qed.

Lemma format_2f_shape x :
  format_2f x = "nan" \/ format_2f x = "inf" \/ format_2f x = "-inf" \/
  two_decimals (format_2f x) = true.
Proof.
  destruct x as [neg|[]| |neg m e]; cbn [format_2f]; auto;
    right; right; right; apply two_decimals_fixed2.
Qed.

(** What [calculate_data_rate] can return. *)
Lemma calculate_data_rate_Ok_inv self text :
  calculate_data_rate self = Ok text ->
  text = "Invalid input" \/ exists x, text = format_2f x +:+ " bits/s".
Proof.
  unfold calculate_data_rate, ModulationBase_calculate_data_rate,
    QPSKModulation_calculate_data_rate, FSKModulation_calculate_data_rate.
  destruct (var ← getattr (rate_var self); float_ (StringVar_get var))
    as [x|[]].
  - destruct (cls self).
    + intros [= <-]. eauto.
    + intros [= <-]. eauto.
    + destruct (var ← getattr (freq_dev_var self); float_ (StringVar_get var))
        as [y|[]]; cbn [mbind result_bind]; intros [= <-]; eauto.
  - destruct (cls self); intros [= <-]; auto.
  - destruct (cls self); discriminate.
  - destruct (cls self); discriminate.
Qed.

End Printed.

(** X13. Whatever the class and the entries, the text [calculate_data_rate]
    returns is "Invalid input", or ends in " bits/s" after "nan", "inf",
    "-inf" or a number written with an optional "-", at least one digit, a
    point and exactly two digits. *)
Theorem data_rate_text_shape self text :
  calculate_data_rate self = Ok text ->
  text = "Invalid input" \/
  exists number,
    text = number +:+ " bits/s" /\
    (number = "nan" \/ number = "inf" \/ number = "-inf" \/
     two_decimals number = true).
Proof.
  intros H. destruct (calculate_data_rate_Ok_inv self text H) as [->|(x & ->)].
  - left. reflexivity.
  - right. exists (format_2f x). split; [reflexivity | apply format_2f_shape].
Qed.

Lemma data_rate_text_shape_witness :
  "0.33 bits/s" = "Invalid input" \/
  exists number,
    "0.33 bits/s" = number +:+ " bits/s" /\
    (number = "nan" \/ number = "inf" \/ number = "-inf" \/
     two_decimals number = true).
Proof.
  exact (data_rate_text_shape
           (instance_with C_FSKModulation ".325" "5") "0.33 bits/s" eq_refl).
Defined.

(** ** Doubling a float *)

Section Doubling.

Lemma iter_shr_exact p : forall m,
  SpecFloat.iter_pos shr_1 p
    (Build_shr_record (Zpos (Pos.iter xO m p)) false false) =
  Build_shr_record (Zpos m) false false.
Proof.
  induction p as [p IH|p IH|]; intros m;
    cbn [SpecFloat.iter_pos Pos.iter shr_1 orb].
  - rewrite !IH. reflexivity.
  - rewrite !IH. reflexivity.
  - reflexivity.
Qed.

Lemma digits2_iter p : forall m,
  Zpos (digits2_pos (Pos.iter xO m p)) = Zpos (digits2_pos m) + Zpos p.
Proof.
  induction p as [|p IH] using Pos.peano_ind; intros m.
  - cbn [Pos.iter digits2_pos]. lia.
  - rewrite Pos.iter_succ. cbn [digits2_pos]. rewrite Pos2Z.inj_succ, IH. lia.
Qed.

Lemma digits2_lower m : 2 ^ (Zpos (digits2_pos m) - 1) <= Zpos m.
Proof.
  induction m as [m IH|m IH|]; cbn [digits2_pos].
  - rewrite Pos2Z.inj_succ.
    replace (Z.succ (Zpos (digits2_pos m)) - 1)
      with (Z.succ (Zpos (digits2_pos m) - 1)) by lia.
    rewrite Z.pow_succ_r by lia. lia.
  - rewrite Pos2Z.inj_succ.
    replace (Z.succ (Zpos (digits2_pos m)) - 1)
      with (Z.succ (Zpos (digits2_pos m) - 1)) by lia.
    rewrite Z.pow_succ_r by lia. lia.
  - reflexivity.
Qed.

(** A shift that drops zeros only is exact. *)
Lemma shr_fexp_exact m p e :
  fexp prec emax (Zpos (digits2_pos m) + Zpos p + e) - e = Zpos p ->
  shr_fexp prec emax (Zpos (Pos.iter xO m p)) e loc_Exact =
  (Build_shr_record (Zpos m) false false, e + Zpos p).
Proof.
  intros H. unfold shr_fexp. cbn [Zdigits2]. rewrite digits2_iter, H.
  cbn [shr shr_record_of_loc]. rewrite iter_shr_exact. reflexivity.
Qed.

Lemma shr_fexp_id m e :
  fexp prec emax (Zpos (digits2_pos m) + e) - e = 0 ->
  shr_fexp prec emax (Zpos m) e loc_Exact =
  (Build_shr_record (Zpos m) false false, e).
Proof.
  intros H. unfold shr_fexp. cbn [Zdigits2]. rewrite H. reflexivity.
Qed.

(** [x * 2.0] on a finite binary64: the exponent of a normal number goes up
    by one, up to the overflow; the mantissa of a subnormal one doubles. *)
Lemma mul_two_finite neg m e :
  bounded prec emax m e = true ->
  mul (S754_finite neg m e) lit_2_0 =
  if Zpos (digits2_pos m) =? 53 then
    if e + 1 <=? emax - prec then S754_finite neg m (e + 1)
    else S754_infinity neg
  else S754_finite neg (xO m) e.
Proof.
  unfold bounded, canonical_mantissa.
  intros H. apply andb_prop in H as [Hc He].
  apply Z.eqb_eq in Hc. apply Z.leb_le in He.
  change lit_2_0 with (S754_finite false 4503599627370496 (-51)).
  unfold mul, SFmul. rewrite xorb_false_r, Pos.mul_comm.
  unfold binary_round_aux.
  destruct (Z.eqb_spec (Zpos (digits2_pos m)) 53) as [Hd|Hd].
  - change (4503599627370496 * m)%positive with (Pos.iter xO m 52).
    rewrite (shr_fexp_exact m 52 (e + -51))
      by (revert Hc; unfold fexp, emin, prec, emax; lia).
    cbn [shr_m loc_of_shr_record round_nearest_even].
    rewrite (shr_fexp_id m (e + -51 + 52))
      by (revert Hc; unfold fexp, emin, prec, emax; lia).
    cbn [shr_m]. replace (e + -51 + 52) with (e + 1) by lia. reflexivity.
  - assert (e = -1074 /\ Zpos (digits2_pos m) < 53) as [-> Hlt]
      by (revert Hc; unfold fexp, emin, prec, emax; lia).
    change (4503599627370496 * m)%positive with (Pos.iter xO (xO m) 51).
    rewrite (shr_fexp_exact (xO m) 51 (-1074 + -51))
      by (cbn [digits2_pos]; rewrite Pos2Z.inj_succ;
          unfold fexp, emin, prec, emax; lia).
    cbn [shr_m loc_of_shr_record round_nearest_even].
    rewrite (shr_fexp_id (xO m) (-1074 + -51 + 51))
      by (cbn [digits2_pos]; rewrite Pos2Z.inj_succ;
          unfold fexp, emin, prec, emax; lia).
    reflexivity.
Qed.

(** Doubling is exact, or overflows from the topmost binade. *)
Lemma mul_two_exact x u :
  valid_binary prec emax x = true -> ulps x = Some u ->
  ulps (mul x lit_2_0) = Some (2 * u) \/
  (mul x lit_2_0 = S754_infinity (u <? 0) /\ 2 ^ 2097 <= Z.abs u).
Proof.
  destruct x as [neg|neg| |neg m e]; cbn [valid_binary ulps];
    intros Hvalid Hu; try discriminate Hu; injection Hu as <-.
  - left. destruct neg; reflexivity.
  - rewrite (mul_two_finite neg m e Hvalid).
    unfold bounded, canonical_mantissa in Hvalid.
    apply andb_prop in Hvalid as [Hc He].
    apply Z.eqb_eq in Hc. apply Z.leb_le in He.
    assert (-1074 <= e) as Hlow
      by (revert Hc; unfold fexp, emin, prec, emax; lia).
    assert (0 < 2 ^ (e + 1074)) as Hpow by (apply Z.pow_pos_nonneg; lia).
    destruct (Z.eqb_spec (Zpos (digits2_pos m)) 53) as [Hd|Hd].
    + destruct (Z.leb_spec (e + 1) (emax - prec)) as [Hfit|Hover].
      * left. cbn [ulps]. f_equal.
        replace (e + 1 + 1074) with (Z.succ (e + 1074)) by lia.
        rewrite Z.pow_succ_r by lia. ring.
      * right. assert (e = 971) as -> by (unfold emax, prec in *; lia).
        pose proof (digits2_lower m) as Hm. rewrite Hd in Hm.
        change (53 - 1) with 52 in Hm. change (971 + 1074) with 2045 in *.
        assert (2 ^ 2097 <= Zpos m * 2 ^ 2045) as Hbig.
        { change 2097 with (52 + 2045). rewrite Z.pow_add_r by lia.
          apply Z.mul_le_mono_nonneg_r; lia. }
        destruct neg; cbv iota.
        -- assert ((-1 * Zpos m * 2 ^ 2045 <? 0) = true) as ->
             by (apply Z.ltb_lt; nia).
           split; [reflexivity|]. rewrite Z.abs_neq by nia. nia.
        -- assert ((1 * Zpos m * 2 ^ 2045 <? 0) = false) as ->
             by (apply Z.ltb_ge; nia).
           split; [reflexivity|]. rewrite Z.abs_eq by nia. nia.
    + left. cbn [ulps]. f_equal. rewrite Pos2Z.inj_xO. ring.
Qed.

End Doubling.

(** X14. The doubling of the QPSK class is exact. When the rate reads as a
    valid finite binary64 of [u] units of 2^-1074, the number the QPSK
    instance prints is the float of [2 * u] units, with no rounding before
    the two decimals are taken; or it is the infinity of the sign of the
    rate, and that only for a rate of magnitude 2^1023 or more. *)
Theorem QPSK_doubling_exact self var x u :
  cls self = C_QPSKModulation ->
  rate_var self = Some var ->
  float_of_string (value var) = Some x ->
  valid_binary prec emax x = true -> ulps x = Some u ->
  exists y,
    calculate_data_rate self = Ok (format_2f y +:+ " bits/s") /\
    (ulps y = Some (2 * u) \/
     (y = S754_infinity (u <? 0) /\ 2 ^ 2097 <= Z.abs u)).
Proof.
  intros Hcls Hvar Hx Hvalid Hu. exists (mul x lit_2_0). split.
  - unfold calculate_data_rate. rewrite Hcls.
    exact (QPSKModulation_rate_parses self var x Hvar Hx).
  - exact (mul_two_exact x u Hvalid Hu).
Qed.

Lemma QPSK_doubling_exact_witness :
  exists y,
    calculate_data_rate (instance_with C_QPSKModulation "0.1" "0") =
      Ok (format_2f y +:+ " bits/s") /\
    (ulps y = Some (2 * (7205759403792794 * 2 ^ 1018)) \/
     (y = S754_infinity (7205759403792794 * 2 ^ 1018 <? 0) /\
      2 ^ 2097 <= Z.abs (7205759403792794 * 2 ^ 1018))).
Proof.
  exact (QPSK_doubling_exact
           (instance_with C_QPSKModulation "0.1" "0") (StringVar_new "0.1")
           (S754_finite false 7205759403792794 (-56))
           (7205759403792794 * 2 ^ 1018)
           eq_refl eq_refl eq_refl eq_refl eq_refl).
Defined.
